(** * dxf_to_shapefile.py: DXF polygon to Shapefile conversion

    A shallow embedding of [src/dxf_to_shapefile.py] and the properties of
    its four pipeline stages: [encontrar_poligono_por_id] (entity locator),
    [extrair_coordenadas_poligono] (ring extractor),
    [converter_coordenadas_utm] (coordinate normalisation) and
    [criar_shapefile] (vector writer).

    Python values are modelled as follows.
    - [str] is [string]; the script only compares strings and upper-cases
      the hemisphere, and the model covers ASCII text ([upper] leaves other
      bytes alone).
    - [int] is [Z].
    - A coordinate ([float]) is a value of a type [coord] with decidable
      equality: [==] on floats other than NaN.  [round(float(x), 16)] is
      the function [round16], supplied by the environment.
    - A [list] that is mutated through a reference lives in a store
      ([heap]), addressed by a location.
    - The shapely / geopandas / pyproj calls are taken from an environment
      ([library]); each of them may raise. *)

From Stdlib Require Import ZArith Ascii String.
From stdpp Require Import base decidable option list strings gmap.

Local Open Scope string_scope.
Local Open Scope list_scope.
Local Open Scope Z_scope.

(** ** Strings *)

Module Str.

(** [c.upper()] for one ASCII character. *)
Definition upper_ascii (c : ascii) : ascii :=
  let n := N_of_ascii c in
  if ((97 <=? n) && (n <=? 122))%N then ascii_of_N (n - 32) else c.

(** [s.upper()] *)
Fixpoint upper (s : string) : string :=
  match s with
  | EmptyString => EmptyString
  | String c s' => String (upper_ascii c) (upper s')
  end.

End Str.

(** ** Coordinate-system code (lines 89-95 of [criar_shapefile]) *)

(** [if hemisferio.upper() == 'S': 32700 + int(zona_utm) else: 32600 + int(zona_utm)].
    The zone is the integer [int(zona_utm)]. *)
Definition epsg_code (hemisferio : string) (zona_utm : Z) : Z :=
  if decide (Str.upper hemisferio = "S")
  then 32700 + zona_utm
  else 32600 + zona_utm.

(** ** Exceptions and results *)

(** The two handlers of [main] tell [Exception] (and its subclasses, named
    by [what]) from [KeyboardInterrupt], which is not an [Exception]. *)
Inductive exn : Type :=
  | Exception (what : string)
  | KeyboardInterrupt.

Inductive result (A : Type) : Type :=
  | Ret (a : A)
  | Raise (e : exn).
Arguments Ret {A} a.
Arguments Raise {A} e.

(** [xs[i]], with Python's negative indices and its [IndexError]. *)
Definition index {A : Type} (xs : list A) (i : Z) : result A :=
  let n := Z.of_nat (length xs) in
  let j := if i <? 0 then i + n else i in
  if (j <? 0) || (n <=? j) then Raise (Exception "IndexError")
  else match xs !! Z.to_nat j with
       | Some x => Ret x
       | None => Raise (Exception "IndexError")
       end.

(** A reference to a Python list object. *)
Definition loc : Type := positive.

(** The string [f"EPSG:{code}"] assigned to [gdf.crs]. *)
Inductive crs_spec : Type :=
  | EPSG (code : Z).

(** What the script prints, one constructor per [print] of the pipeline. *)
Inductive message : Type :=
  | MsgCarregado (caminho_dxf : string)            (* line 21 *)
  | MsgErroLeitura (e : exn)                       (* line 24 *)
  | MsgNaoEncontrado (entity_id : string)          (* line 40 *)
  | MsgMinimoPontos                                (* line 77 *)
  | MsgShapefileCriado (caminho_saida : string)    (* line 100 *)
  | MsgErroShapefile (e : exn)                     (* line 103 *)
  | MsgProcessando                                 (* lines 140-142 *)
  | MsgEncontrado (dxftype : string)               (* line 154 *)
  | MsgSemCoordenadas                              (* line 159 *)
  | MsgPontosExtraidos (n : nat)                   (* line 162 *)
  | MsgSucesso (arquivos : list string)
               (zona_utm : Z) (hemisferio : string) (* lines 171-181 *)
  | MsgErroConversao                               (* line 183 *)
  | MsgCancelado                                   (* line 186 *)
  | MsgErroInesperado (e : exn).                   (* line 188 *)

Section Model.
Context {coord : Type} `{!EqDecision coord}.

(** ** Drawing entities (ezdxf) *)

(** One item of [LWPolyline.get_points()]:
    [(x, y, start_width, end_width, bulge)]. *)
Record lwpoint : Type := LWPoint {
  lw_x : coord;
  lw_y : coord;
  lw_start_width : coord;
  lw_end_width : coord;
  lw_bulge : coord
}.

(** [vertex.dxf.location] of a VERTEX sub-record of a POLYLINE. *)
Record vec3 : Type := Vec3 { vec_x : coord; vec_y : coord; vec_z : coord }.
Record vertex : Type := Vertex { location : vec3 }.

Inductive entity : Type :=
  | LWPolyline (h : string) (points : list lwpoint)
  | Polyline (h : string) (vs : list vertex)
  | Other (ty : string) (h : string).

(** [entity.dxftype()] *)
Definition dxftype (e : entity) : string :=
  match e with
  | LWPolyline _ _ => "LWPOLYLINE"
  | Polyline _ _ => "POLYLINE"
  | Other ty _ => ty
  end.

(** [entity.dxf.handle] *)
Definition handle (e : entity) : string :=
  match e with
  | LWPolyline h _ | Polyline h _ | Other _ h => h
  end.

(** [entity.get_points()]: only an LWPOLYLINE has the method. *)
Definition get_points (e : entity) : result (list lwpoint) :=
  match e with
  | LWPolyline _ points => Ret points
  | _ => Raise (Exception "AttributeError")
  end.

(** [entity.vertices]: only a POLYLINE has the attribute. *)
Definition vertices (e : entity) : result (list vertex) :=
  match e with
  | Polyline _ vs => Ret vs
  | _ => Raise (Exception "AttributeError")
  end.

(** The document: [doc.modelspace()] iterates its entities in order. *)
Record drawing : Type := Drawing { modelspace : list entity }.

(** ** Geometry objects (shapely, geopandas) *)

Definition point : Type := coord * coord.

(** [Polygon(shell)] keeps the coordinate sequence it was built from. *)
Record polygon : Type := MkPolygon { shell : list point }.

(** [GeoDataFrame(data, geometry=..., crs=...)] *)
Record geodataframe : Type := GeoDataFrame {
  data : list Z;
  geometry : list polygon;
  crs : option crs_spec
}.

(** ** The environment *)

(** The third-party calls, in the order the script makes them. *)
Inductive call : Type :=
  | CallReadfile (caminho_dxf : string)
  | CallPolygon (ring : list point)
  | CallSetCrs (c : crs_spec)
  | CallToFile (gdf : geodataframe) (caminho_saida : string) (driver : string).

(** What the libraries answer.  [readfile] parses a drawing or raises;
    [polygon_raises] and [crs_raises] say whether [Polygon(...)] and the
    assignment to [gdf.crs] raise; [to_file] gives the files on disk after
    the attempt and the exception, if any, the driver raised;
    [round16 x] is [round(float(x), 16)]. *)
Record library : Type := Library {
  readfile : string -> result drawing;
  polygon_raises : list point -> option exn;
  crs_raises : crs_spec -> option exn;
  to_file : geodataframe -> string -> gset string -> option exn * gset string;
  round16 : coord -> coord
}.

(** The state a run acts on: the list objects, the terminal, the files on
    disk (by path) and the record of library calls. *)
Record world : Type := World {
  heap : gmap loc (list point);
  stdout : list message;
  disk : gset string;
  calls : list call
}.

(** ** A state-and-exception monad for the script *)

Definition M (A : Type) : Type := world -> result A * world.

#[export] Instance M_ret : MRet M := fun A a w => (Ret a, w).

#[export] Instance M_bind : MBind M := fun A B k m w =>
  match m w with
  | (Ret a, w') => k a w'
  | (Raise e, w') => (Raise e, w')
  end.

Definition raise {A : Type} (e : exn) : M A := fun w => (Raise e, w).

Definition lift {A : Type} (r : result A) : M A := fun w => (r, w).

(** [try: body  except Exception as e: handler(e)] *)
Definition try_except {A : Type} (body : M A) (handler : exn -> M A) : M A :=
  fun w =>
    match body w with
    | (Raise (Exception what), w') => handler (Exception what) w'
    | other => other
    end.

(** [print(...)] *)
Definition print (m : message) : M unit := fun w =>
  (Ret tt, World (heap w) (stdout w ++ [m]) (disk w) (calls w)).

Definition record (c : call) : M unit := fun w =>
  (Ret tt, World (heap w) (stdout w) (disk w) (calls w ++ [c])).

(** *** List objects *)

(** Reading the list a reference points to. *)
Definition load (l : loc) : M (list point) := fun w =>
  match heap w !! l with
  | Some pts => (Ret pts, w)
  | None => (Raise (Exception "ReferenceError"), w)
  end.

(** A new list object holding [pts]. *)
Definition alloc (pts : list point) : M loc := fun w =>
  let l := fresh (dom (heap w)) in
  (Ret l, World (<[l := pts]> (heap w)) (stdout w) (disk w) (calls w)).

(** [len(l)] *)
Definition len (l : loc) : M Z :=
  pts ← load l; mret (Z.of_nat (length pts)).

(** [l[i]] *)
Definition getitem (l : loc) (i : Z) : M point :=
  pts ← load l; lift (index pts i).

(** [l.append(p)]: the list object itself grows. *)
Definition append (l : loc) (p : point) : M unit := fun w =>
  match heap w !! l with
  | Some pts =>
      (Ret tt, World (<[l := pts ++ [p]]> (heap w)) (stdout w) (disk w) (calls w))
  | None => (Raise (Exception "ReferenceError"), w)
  end.

(** ** The script *)

Context (lib : library).

(** *** Library calls *)

(** [ezdxf.readfile(caminho_dxf)] *)
Definition ezdxf_readfile (caminho_dxf : string) : M drawing :=
  record (CallReadfile caminho_dxf);;
  lift (readfile lib caminho_dxf).

(** [Polygon(pontos)]: shapely reads the list it is given. *)
Definition shapely_Polygon (pontos : loc) : M polygon :=
  ring ← load pontos;
  record (CallPolygon ring);;
  match polygon_raises lib ring with
  | Some e => raise e
  | None => mret (MkPolygon ring)
  end.

(** [gdf.crs = c] *)
Definition set_crs (gdf : geodataframe) (c : crs_spec) : M geodataframe :=
  record (CallSetCrs c);;
  match crs_raises lib c with
  | Some e => raise e
  | None => mret (GeoDataFrame (data gdf) (geometry gdf) (Some c))
  end.

(** [gdf.to_file(caminho_saida, driver=driver)] *)
Definition gdf_to_file (gdf : geodataframe) (caminho_saida driver : string)
  : M unit := fun w =>
  let '(r, d) := to_file lib gdf caminho_saida (disk w) in
  (match r with Some e => Raise e | None => Ret tt end,
   World (heap w) (stdout w) d
         (calls w ++ [CallToFile gdf caminho_saida driver])).

(** *** [ler_arquivo_dxf] (lines 15-25) *)

Definition ler_arquivo_dxf (caminho_dxf : string) : M (option drawing) :=
  try_except
    (doc ← ezdxf_readfile caminho_dxf;
     print (MsgCarregado caminho_dxf);;
     mret (Some doc))
    (fun e => print (MsgErroLeitura e);; mret None).

(** *** [encontrar_poligono_por_id] (lines 27-41) *)

(** The [for] loop of lines 34-38; [None] when it runs to its end.
    Handles and the requested identifier are strings, on which [str] is
    the identity. *)
Fixpoint encontrar_loop (msp : list entity) (entity_id : string)
  : option entity :=
  match msp with
  | [] => None
  | ent :: msp' =>
      if decide (dxftype ent ∈ ["LWPOLYLINE"; "POLYLINE"]) then
        if decide (handle ent = entity_id) then Some ent
        else encontrar_loop msp' entity_id
      else encontrar_loop msp' entity_id
  end.

Definition encontrar_poligono_por_id (doc : drawing) (entity_id : string)
  : M (option entity) :=
  let msp := modelspace doc in
  match encontrar_loop msp entity_id with
  | Some ent => mret (Some ent)
  | None => print (MsgNaoEncontrado entity_id);; mret None
  end.

(** *** [extrair_coordenadas_poligono] (lines 43-56) *)

Definition extrair_coordenadas_poligono (ent : entity) : result (list point) :=
  let pontos := [] in
  if decide (dxftype ent = "LWPOLYLINE") then
    match get_points ent with
    | Ret points =>
        Ret (fold_left (fun pontos p => pontos ++ [(lw_x p, lw_y p)])
                       points pontos)
    | Raise e => Raise e
    end
  else if decide (dxftype ent = "POLYLINE") then
    match vertices ent with
    | Ret vs =>
        Ret (fold_left
               (fun pontos v =>
                  pontos ++ [(vec_x (location v), vec_y (location v))])
               vs pontos)
    | Raise e => Raise e
    end
  else Ret pontos.

(** *** [converter_coordenadas_utm] (lines 58-69) *)

(** [zona_utm] and [hemisferio] are not used by the body. *)
Definition converter_coordenadas_utm
    (pontos : list point) (zona_utm : Z) (hemisferio : string) : list point :=
  let pontos_utm := [] in
  fold_left
    (fun pontos_utm '(x, y) => pontos_utm ++ [(round16 lib x, round16 lib y)])
    pontos pontos_utm.

(** *** [criar_shapefile] (lines 71-104) *)

Definition criar_shapefile
    (pontos : loc) (zona_utm : Z) (hemisferio caminho_saida : string)
  : M bool :=
  n ← len pontos;
  if n <? 3 then
    print MsgMinimoPontos;;
    mret false
  else
    primeiro ← getitem pontos 0;
    ultimo ← getitem pontos (-1);
    (if decide (primeiro ≠ ultimo) then
       p ← getitem pontos 0;
       append pontos p
     else mret tt);;
    poligono ← shapely_Polygon pontos;
    let gdf := GeoDataFrame [1] [poligono] None in
    gdf ← set_crs gdf (EPSG (epsg_code hemisferio zona_utm));
    try_except
      (gdf_to_file gdf caminho_saida "ESRI Shapefile";;
       print (MsgShapefileCriado caminho_saida);;
       mret true)
      (fun e => print (MsgErroShapefile e);; mret false).

(** *** [main] (lines 106-188), after the prompts *)

(** The four names printed by lines 175-178. *)
Definition arquivos_gerados (caminho_saida : string) : list string :=
  [caminho_saida +:+ ".shp"; caminho_saida +:+ ".shx";
   caminho_saida +:+ ".dbf"; caminho_saida +:+ ".prj"].

(** Lines 136-183.  The arguments are what lines 117-134 gather: the
    drawing's path, its stem [Path(caminho_dxf).stem], the identifier, the
    zone (a string of digits, here the number it denotes) and the
    hemisphere, already stripped, upper-cased and defaulted to ['S']. *)
Definition main_body
    (caminho_dxf nome_base entity_id : string) (zona_utm : Z)
    (hemisferio : string) : M unit :=
  let caminho_saida := nome_base +:+ "_poligono_" +:+ entity_id in
  print MsgProcessando;;
  doc ← ler_arquivo_dxf caminho_dxf;
  match doc with
  | None => mret tt
  | Some doc =>
      ent ← encontrar_poligono_por_id doc entity_id;
      match ent with
      | None => mret tt
      | Some ent =>
          print (MsgEncontrado (dxftype ent));;
          pontos ← lift (extrair_coordenadas_poligono ent);
          match pontos with
          | [] => print MsgSemCoordenadas
          | _ :: _ =>
              print (MsgPontosExtraidos (length pontos));;
              pontos_utm ←
                alloc (converter_coordenadas_utm pontos zona_utm hemisferio);
              sucesso ←
                criar_shapefile pontos_utm zona_utm hemisferio caminho_saida;
              if sucesso : bool then
                print (MsgSucesso (arquivos_gerados caminho_saida)
                                  zona_utm hemisferio)
              else print MsgErroConversao
          end
      end
  end.

(** The two [except] clauses of lines 185-188. *)
Definition main
    (caminho_dxf nome_base entity_id : string) (zona_utm : Z)
    (hemisferio : string) : M unit := fun w =>
  match main_body caminho_dxf nome_base entity_id zona_utm hemisferio w with
  | (Raise KeyboardInterrupt, w') => print MsgCancelado w'
  | (Raise (Exception what), w') =>
      print (MsgErroInesperado (Exception what)) w'
  | other => other
  end.
End Model.

(** ** Concrete environments and inputs

    Coordinates are taken in [Z] here: whole numbers of metres. *)

(** A disk that starts empty, a silent terminal and no list objects. *)
Definition world0 : world (coord := Z) := World ∅ [] ∅ [].

(** Scenario A's drawing: one LWPOLYLINE with handle 1A, after a text
    entity with handle 2B. *)
Definition desenho_A : drawing (coord := Z) :=
  Drawing
    [Other "TEXT" "2B";
     LWPolyline "1A"
       [LWPoint 500000 7500000 0 0 0;
        LWPoint 500100 7500000 0 0 0;
        LWPoint 500100 7500100 0 0 0]].

(** A well-behaved installation: every file parses to [desenho_A], no
    constructor raises, and the driver writes the four files. *)
Definition lib_ok : library (coord := Z) :=
  Library
    (fun _ => Ret desenho_A)
    (fun _ => None)
    (fun _ => None)
    (fun _ caminho_saida files =>
       (None, files ∪ list_to_set (arquivos_gerados caminho_saida)))
    (fun x => x).

(** A full disk: the driver leaves the geometry file behind and raises. *)
Definition lib_disco_cheio : library (coord := Z) :=
  Library
    (fun _ => Ret desenho_A)
    (fun _ => None)
    (fun _ => None)
    (fun _ caminho_saida files =>
       (Some (Exception "OSError"), files ∪ {[caminho_saida +:+ ".shp"]}))
    (fun x => x).

(** Scenario D's drawing: one POLYLINE with two vertices. *)
Definition desenho_D : drawing (coord := Z) :=
  Drawing [Polyline "2F" [Vertex (Vec3 0 0 0); Vertex (Vec3 10 0 5)]].

Definition lib_D : library (coord := Z) :=
  Library
    (fun _ => Ret desenho_D)
    (fun _ => None)
    (fun _ => None)
    (fun _ caminho_saida files =>
       (None, files ∪ list_to_set (arquivos_gerados caminho_saida)))
    (fun x => x).

(** Lists of points, and worlds in which reference 1 holds one of them. *)
Definition triangulo : list (point (coord := Z)) :=
  [(500000, 7500000); (500100, 7500000); (500100, 7500100)].

Definition segmento : list (point (coord := Z)) :=
  [(500000, 7500000); (500100, 7500000)].

Definition vai_e_volta : list (point (coord := Z)) :=
  [(500000, 7500000); (500100, 7500000); (500000, 7500000)].

Definition mundo_com (pts : list (point (coord := Z))) : world (coord := Z) :=
  World {[1%positive := pts]} [] ∅ [].

(** The entities the locator's two tests let through (lines 35 and 37). *)
Definition qualifica {coord : Type} (entity_id : string) (ent : entity (coord := coord))
  : Prop :=
  dxftype ent ∈ ["LWPOLYLINE"; "POLYLINE"] ∧ handle ent = entity_id.

(** An entity whose kind string agrees with what it carries: one that is
    neither an LWPOLYLINE nor a POLYLINE object does not say it is one. *)
Definition entidade_coerente {coord : Type} (ent : entity (coord := coord))
  : Prop :=
  match ent with
  | Other ty _ => ty ∉ ["LWPOLYLINE"; "POLYLINE"]
  | _ => True
  end.

(** ** The hemisphere prompt (lines 132-134 of [main]) *)






(** ** More environments *)

(** shapely refuses every ring. *)
Definition lib_poligono_invalido : library (coord := Z) :=
  Library
    (fun _ => Ret desenho_A)
    (fun _ => Some (Exception "ValueError"))
    (fun _ => None)
    (fun _ caminho_saida files =>
       (None, files ∪ list_to_set (arquivos_gerados caminho_saida)))
    (fun x => x).

(** pyproj knows no such code. *)
Definition lib_crs_desconhecido : library (coord := Z) :=
  Library
    (fun _ => Ret desenho_A)
    (fun _ => None)
    (fun _ => Some (Exception "CRSError"))
    (fun _ caminho_saida files =>
       (None, files ∪ list_to_set (arquivos_gerados caminho_saida)))
    (fun x => x).

(** The operator interrupts the driver after the geometry file. *)
Definition lib_interrompido : library (coord := Z) :=
  Library
    (fun _ => Ret desenho_A)
    (fun _ => None)
    (fun _ => None)
    (fun _ caminho_saida files =>
       (Some KeyboardInterrupt, files ∪ {[caminho_saida +:+ ".shp"]}))
    (fun x => x).

(** The file is not a drawing. *)
Definition lib_ilegivel : library (coord := Z) :=
  Library
    (fun _ => Raise (Exception "DXFStructureError"))
    (fun _ => None)
    (fun _ => None)
    (fun _ caminho_saida files =>
       (None, files ∪ list_to_set (arquivos_gerados caminho_saida)))
    (fun x => x).



(** Closes [x ∉ [y1; ...; yn]] when [x] and each [yi] start with different
    constructors. *)
Ltac nao_esta :=
  let Hin := fresh "Hin" in
  intros Hin;
  repeat (apply elem_of_cons in Hin as [Hin|Hin]; [discriminate|]);
  by apply elem_of_nil in Hin.

(** * Properties *)

(** ** Strings and the coordinate-system code *)


Lemma epsg_code_south (h : string) (z : Z) :
  Str.upper h = "S" → epsg_code h z = 32700 + z.
Proof. intros Hs. unfold epsg_code. by rewrite decide_True. Qed.

Lemma epsg_code_not_south (h : string) (z : Z) :
  Str.upper h ≠ "S" → epsg_code h z = 32600 + z.
Proof. intros Hs. unfold epsg_code. by rewrite decide_False. Qed.

Lemma tipo_suportado (ty : string) :
  ty ∈ ["LWPOLYLINE"; "POLYLINE"] ↔ ty = "LWPOLYLINE" ∨ ty = "POLYLINE".
Proof. by rewrite elem_of_cons, list_elem_of_singleton. Qed.

(** ** The loops that build a list by [append] *)

Lemma fold_left_append {A B : Type} (f : A → B) (xs : list A) (acc : list B) :
  fold_left (fun acc x => acc ++ [f x]) xs acc = acc ++ map f xs.
Proof.
  revert acc. induction xs as [|x xs IH]; intros acc; simpl.
  - by rewrite app_nil_r.
  - by rewrite IH, <- app_assoc.
Qed.

Section Stages.
Context {coord : Type} `{!EqDecision coord}.
Implicit Types (ent : entity (coord := coord)) (msp : list (entity (coord := coord))).
Implicit Types (w : world (coord := coord)) (lib : library (coord := coord)).

(** *** Entity locator *)

Lemma encontrar_loop_list_find msp entity_id :
  encontrar_loop msp entity_id = snd <$> list_find (qualifica entity_id) msp.
Proof.
  induction msp as [|ent msp IH]; [reflexivity|].
  cbn [encontrar_loop list_find].
  destruct (decide (dxftype ent ∈ ["LWPOLYLINE"; "POLYLINE"])) as [Hk|Hk].
  - destruct (decide (handle ent = entity_id)) as [Hh|Hh].
    + by rewrite decide_True.
    + rewrite decide_False by (by intros [_ ?]).
      rewrite IH. by destruct (list_find _ msp) as [[i x]|].
  - rewrite decide_False by (by intros [? _]).
    rewrite IH. by destruct (list_find _ msp) as [[i x]|].
Qed.

Lemma encontrar_loop_Some msp entity_id ent :
  encontrar_loop msp entity_id = Some ent ↔
  ∃ antes depois,
    msp = antes ++ ent :: depois ∧ qualifica entity_id ent ∧
    Forall (fun e => ¬ qualifica entity_id e) antes.
Proof.
  rewrite encontrar_loop_list_find. split.
  - intros Hfind.
    destruct (list_find _ msp) as [[i x]|] eqn:Hf; simplify_eq/=.
    apply list_find_Some in Hf as (Hi & Hq & Hbefore).
    exists (take i msp), (drop (S i) msp). split_and!.
    + by rewrite take_drop_middle.
    + done.
    + apply Forall_lookup_2. intros j y Hj.
      apply lookup_take_Some in Hj as [Hj Hlt]. eauto.
  - intros (antes & depois & -> & Hq & Hbefore).
    assert (Hf : list_find (qualifica entity_id) (antes ++ ent :: depois)
                 = Some (length antes, ent)).
    { apply list_find_Some. split_and!.
      - by rewrite list_lookup_middle.
      - done.
      - intros j y Hj Hlt. rewrite lookup_app_l in Hj by done.
        rewrite Forall_lookup in Hbefore. eauto. }
    by rewrite Hf.
Qed.

Lemma encontrar_loop_None msp entity_id :
  encontrar_loop msp entity_id = None ↔
  Forall (fun e => ¬ qualifica entity_id e) msp.
Proof.
  rewrite encontrar_loop_list_find.
  destruct (list_find (qualifica entity_id) msp) as [[i x]|] eqn:Hf; simpl.
  - split; [done|]. intros Hall.
    apply (list_find_None (qualifica entity_id)) in Hall. congruence.
  - split; [|done]. intros _. by apply list_find_None in Hf.
Qed.

(** C4: the locator returns the first entity, in model-space order, that
    is an LWPOLYLINE or a POLYLINE and carries the requested handle; when
    none does, it returns None (after printing that nothing was found) and
    never raises, also when an entity of another kind has the handle. *)
Theorem encontrar_poligono_por_id_first_match
    (doc : drawing (coord := coord)) entity_id w :
  let run := encontrar_poligono_por_id doc entity_id w in
  (∀ ent, fst run = Ret (Some ent) ↔
     ∃ antes depois,
       modelspace doc = antes ++ ent :: depois ∧
       qualifica entity_id ent ∧
       Forall (fun e => ¬ qualifica entity_id e) antes) ∧
  (fst run = Ret None ↔
     Forall (fun e => ¬ qualifica entity_id e) (modelspace doc)) ∧
  (fst run = Ret None ↔
     ∀ e, e ∈ modelspace doc → handle e = entity_id →
          dxftype e ≠ "LWPOLYLINE" ∧ dxftype e ≠ "POLYLINE") ∧
  (∀ e, fst run ≠ Raise e) ∧
  (∀ ent, fst run = Ret (Some ent) → snd run = w) ∧
  (fst run = Ret None →
     snd run = World (heap w) (stdout w ++ [MsgNaoEncontrado entity_id])
                     (disk w) (calls w)).
Proof.
  unfold encontrar_poligono_por_id. cbv zeta.
  destruct (encontrar_loop (modelspace doc) entity_id) as [found|] eqn:Hloop.
  - cbn. split_and!; try done.
    + intros ent. rewrite <- encontrar_loop_Some, Hloop. naive_solver.
    + split; [done|]. intros Hnone%encontrar_loop_None. congruence.
    + split; [done|]. intros Hall.
      apply encontrar_loop_Some in Hloop as (antes & depois & Hm & [Hk Hh] & _).
      destruct (Hall found) as [H1 H2]; [|done|].
      * rewrite Hm, elem_of_app, elem_of_cons. tauto.
      * apply tipo_suportado in Hk. tauto.
  - cbn. split_and!; try done.
    + intros ent. rewrite <- encontrar_loop_Some, Hloop. naive_solver.
    + split; [|done]. intros _. by apply encontrar_loop_None.
    + split; [|done]. intros _ e He Hh.
      apply encontrar_loop_None in Hloop.
      rewrite Forall_forall in Hloop. specialize (Hloop e He).
      unfold qualifica in Hloop. rewrite tipo_suportado in Hloop. tauto.
Qed.

(** *** Ring extractor *)

Lemma extrair_lwpolyline h (points : list (lwpoint (coord := coord))) :
  extrair_coordenadas_poligono (LWPolyline h points)
  = Ret (map (fun p => (lw_x p, lw_y p)) points).
Proof.
  unfold extrair_coordenadas_poligono. simpl. by rewrite fold_left_append.
Qed.

Lemma extrair_polyline h (vs : list (vertex (coord := coord))) :
  extrair_coordenadas_poligono (Polyline h vs)
  = Ret (map (fun v => (vec_x (location v), vec_y (location v))) vs).
Proof.
  unfold extrair_coordenadas_poligono. simpl. by rewrite fold_left_append.
Qed.

(** C6: an LWPOLYLINE gives its (x, y) pairs in stored order, widths and
    bulge dropped; a POLYLINE gives the (x, y) of each vertex location in
    stored order, z dropped; an entity of any other kind gives the empty
    list; and the empty list is returned as a value, never raised as an
    error. *)
Theorem extrair_coordenadas_poligono_by_kind :
  (∀ h (points : list (lwpoint (coord := coord))),
     extrair_coordenadas_poligono (LWPolyline h points)
     = Ret (map (fun p => (lw_x p, lw_y p)) points)) ∧
  (∀ h (vs : list (vertex (coord := coord))),
     extrair_coordenadas_poligono (Polyline h vs)
     = Ret (map (fun v => (vec_x (location v), vec_y (location v))) vs)) ∧
  (∀ ent, dxftype ent ≠ "LWPOLYLINE" → dxftype ent ≠ "POLYLINE" →
     extrair_coordenadas_poligono ent = Ret []) ∧
  (∀ h, extrair_coordenadas_poligono (LWPolyline (coord := coord) h [])
        = Ret []) ∧
  (∀ h, extrair_coordenadas_poligono (Polyline (coord := coord) h [])
        = Ret []) ∧
  (∀ ent pontos,
     extrair_coordenadas_poligono ent = Ret pontos →
     length pontos =
       match ent with
       | LWPolyline _ points => length points
       | Polyline _ vs => length vs
       | Other _ _ => 0%nat
       end).
Proof.
  split_and!.
  - exact extrair_lwpolyline.
  - exact extrair_polyline.
  - intros ent Hlw' Hpl'. unfold extrair_coordenadas_poligono.
    by rewrite !decide_False.
  - intros h. apply (extrair_lwpolyline h []).
  - intros h. apply (extrair_polyline h []).
  - intros [h points|h vs|ty h] pontos.
    + rewrite extrair_lwpolyline. intros [= <-]. by rewrite length_map.
    + rewrite extrair_polyline. intros [= <-]. by rewrite length_map.
    + unfold extrair_coordenadas_poligono. simpl.
      repeat case_decide; intros Hr; by simplify_eq/=.
Qed.

(** *** Coordinate normalisation *)

Lemma converter_loop lib (pontos acc : list point) :
  fold_left
    (fun pontos_utm '(x, y) => pontos_utm ++ [(round16 lib x, round16 lib y)])
    pontos acc
  = acc ++ map (fun p => (round16 lib p.1, round16 lib p.2)) pontos.
Proof.
  revert acc. induction pontos as [|[x y] pontos IH]; intros acc; simpl.
  - by rewrite app_nil_r.
  - by rewrite IH, <- app_assoc.
Qed.

Lemma converter_coordenadas_utm_map lib (pontos : list point) zona_utm hemisferio :
  converter_coordenadas_utm lib pontos zona_utm hemisferio
  = map (fun p => (round16 lib p.1, round16 lib p.2)) pontos.
Proof. unfold converter_coordenadas_utm. cbv zeta. by rewrite converter_loop. Qed.

(** C7: the normalisation maps every pair (x, y) to
    (round(x, 16), round(y, 16)): the result is that map of the input, so
    it has the input's length and order, and it depends on nothing but
    the points. *)
Theorem converter_coordenadas_utm_rounds lib (pontos : list point)
    (zona_utm : Z) (hemisferio : string) :
  converter_coordenadas_utm lib pontos zona_utm hemisferio
  = map (fun p => (round16 lib p.1, round16 lib p.2)) pontos ∧
  length (converter_coordenadas_utm lib pontos zona_utm hemisferio)
  = length pontos ∧
  (∀ i : nat,
     converter_coordenadas_utm lib pontos zona_utm hemisferio !! i
     = (fun p => (round16 lib p.1, round16 lib p.2)) <$> pontos !! i) ∧
  (∀ zona_utm' hemisferio',
     converter_coordenadas_utm lib pontos zona_utm' hemisferio'
     = converter_coordenadas_utm lib pontos zona_utm hemisferio).
Proof.
  split_and!.
  - apply converter_coordenadas_utm_map.
  - by rewrite converter_coordenadas_utm_map, length_map.
  - intros i. by rewrite converter_coordenadas_utm_map, list_lookup_fmap.
  - intros z' h'. by rewrite !converter_coordenadas_utm_map.
Qed.
End Stages.

(** ** Vector writer *)

Lemma index_first {A : Type} (xs : list A) (a : A) :
  head xs = Some a → index xs 0 = Ret a.
Proof.
  destruct xs as [|x xs]; [discriminate|]. intros [= ->].
  unfold index. cbn [length]. rewrite Z.ltb_irrefl. cbn [orb].
  destruct (Z.leb_spec (Z.of_nat (S (length xs))) 0); [lia|]. reflexivity.
Qed.

Lemma index_minus_one {A : Type} (xs : list A) (b : A) :
  last xs = Some b → index xs (-1) = Ret b.
Proof.
  intros Hlast. unfold index.
  assert (Hlen : (0 < length xs)%nat).
  { destruct xs; [discriminate|]. simpl. lia. }
  change (-1 <? 0) with true. cbv iota.
  destruct (Z.ltb_spec (-1 + Z.of_nat (length xs)) 0); [lia|].
  destruct (Z.leb_spec (Z.of_nat (length xs)) (-1 + Z.of_nat (length xs)));
    [lia|].
  cbn [orb].
  replace (Z.to_nat (-1 + Z.of_nat (length xs))) with (pred (length xs)) by lia.
  by rewrite <- last_lookup, Hlast.
Qed.

Section Writer.
Context {coord : Type} `{!EqDecision coord}.
Context (lib : library (coord := coord)).
Implicit Types (w : world (coord := coord)) (pts ring : list (point (coord := coord))).
Implicit Types (a b : point (coord := coord)).

(** *** Running the monad, one statement at a time *)

Lemma run_bind {A B : Type} (m : M A) (k : A → M B) w :
  (m ≫= k) w =
  match m w with
  | (Ret x, w') => k x w'
  | (Raise e, w') => (Raise e, w')
  end.
Proof. reflexivity. Qed.

Lemma len_run pontos w pts :
  heap w !! pontos = Some pts →
  len pontos w = (Ret (Z.of_nat (length pts)), w).
Proof. intros Hl. unfold len, load. by rewrite run_bind, Hl. Qed.

Lemma getitem_run pontos i w pts p :
  heap w !! pontos = Some pts →
  index pts i = Ret p →
  getitem pontos i w = (Ret p, w).
Proof.
  intros Hl Hi. unfold getitem, load, lift. by rewrite run_bind, Hl, Hi.
Qed.

Lemma append_run pontos p w pts :
  heap w !! pontos = Some pts →
  append pontos p w
  = (Ret (), World (<[pontos := pts ++ [p]]> (heap w))
                   (stdout w) (disk w) (calls w)).
Proof. intros Hl. unfold append. by rewrite Hl. Qed.

Lemma shapely_Polygon_run pontos w ring :
  heap w !! pontos = Some ring →
  shapely_Polygon lib pontos w =
  (match polygon_raises lib ring with
   | Some e => Raise e
   | None => Ret (MkPolygon ring)
   end,
   World (heap w) (stdout w) (disk w) (calls w ++ [CallPolygon ring])).
Proof.
  intros Hl. unfold shapely_Polygon, load, record, raise.
  rewrite run_bind, Hl. cbv beta iota. rewrite run_bind. cbv beta iota.
  by destruct (polygon_raises lib ring).
Qed.

Lemma set_crs_run gdf c w :
  set_crs lib gdf c w =
  (match crs_raises lib c with
   | Some e => Raise e
   | None => Ret (GeoDataFrame (data gdf) (geometry gdf) (Some c))
   end,
   World (heap w) (stdout w) (disk w) (calls w ++ [CallSetCrs c])).
Proof.
  unfold set_crs, record, raise. rewrite run_bind. cbv beta iota.
  by destruct (crs_raises lib c).
Qed.

(** Lines 97-104: the [try] around the driver. *)
Lemma try_to_file_run gdf caminho_saida w :
  try_except
    (gdf_to_file lib gdf caminho_saida "ESRI Shapefile";;
     print (MsgShapefileCriado caminho_saida);;
     mret true)
    (fun e => print (MsgErroShapefile e);; mret false) w =
  let cs := calls w ++ [CallToFile gdf caminho_saida "ESRI Shapefile"] in
  match to_file lib gdf caminho_saida (disk w) with
  | (None, files) =>
      (Ret true,
       World (heap w) (stdout w ++ [MsgShapefileCriado caminho_saida])
             files cs)
  | (Some (Exception what), files) =>
      (Ret false,
       World (heap w) (stdout w ++ [MsgErroShapefile (Exception what)])
             files cs)
  | (Some KeyboardInterrupt, files) =>
      (Raise KeyboardInterrupt, World (heap w) (stdout w) files cs)
  end.
Proof.
  unfold try_except. rewrite run_bind. unfold gdf_to_file.
  destruct (to_file lib gdf caminho_saida (disk w)) as [[[what|]|] files];
    reflexivity.
Qed.

(** *** [criar_shapefile], case by case *)

Lemma criar_shapefile_poucos_pontos pontos zona_utm hemisferio caminho_saida w pts :
  heap w !! pontos = Some pts →
  (length pts < 3)%nat →
  criar_shapefile lib pontos zona_utm hemisferio caminho_saida w
  = (Ret false,
     World (heap w) (stdout w ++ [MsgMinimoPontos]) (disk w) (calls w)).
Proof.
  intros Hl Hn. unfold criar_shapefile.
  rewrite run_bind, (len_run _ _ _ Hl). cbv beta iota.
  destruct (Z.ltb_spec (Z.of_nat (length pts)) 3); [|lia].
  reflexivity.
Qed.

(** What a run on a list of three points or more comes to, by the answers
    of the libraries.  [ring] is the list after lines 81-82. *)
Lemma criar_shapefile_run pontos zona_utm hemisferio caminho_saida w pts a b :
  heap w !! pontos = Some pts →
  (3 ≤ length pts)%nat →
  head pts = Some a →
  last pts = Some b →
  let ring := if decide (a ≠ b) then pts ++ [a] else pts in
  let c := EPSG (epsg_code hemisferio zona_utm) in
  let gdf := GeoDataFrame [1] [MkPolygon ring] (Some c) in
  let hp := <[pontos := ring]> (heap w) in
  let cs := calls w ++ [CallPolygon ring] in
  let cs' := cs ++ [CallSetCrs c] in
  let cs'' := cs' ++ [CallToFile gdf caminho_saida "ESRI Shapefile"] in
  criar_shapefile lib pontos zona_utm hemisferio caminho_saida w =
  match polygon_raises lib ring with
  | Some e => (Raise e, World hp (stdout w) (disk w) cs)
  | None =>
      match crs_raises lib c with
      | Some e => (Raise e, World hp (stdout w) (disk w) cs')
      | None =>
          match to_file lib gdf caminho_saida (disk w) with
          | (None, files) =>
              (Ret true,
               World hp (stdout w ++ [MsgShapefileCriado caminho_saida])
                     files cs'')
          | (Some (Exception what), files) =>
              (Ret false,
               World hp (stdout w ++ [MsgErroShapefile (Exception what)])
                     files cs'')
          | (Some KeyboardInterrupt, files) =>
              (Raise KeyboardInterrupt, World hp (stdout w) files cs'')
          end
      end
  end.
Proof.
  intros Hl Hn Ha Hb. cbv zeta.
  set (ring := if decide (a ≠ b) then pts ++ [a] else pts).
  unfold criar_shapefile.
  rewrite run_bind, (len_run _ _ _ Hl). cbv beta iota.
  destruct (Z.ltb_spec (Z.of_nat (length pts)) 3); [lia|].
  rewrite run_bind, (getitem_run _ _ _ _ _ Hl (index_first _ _ Ha)).
  cbv beta iota.
  rewrite run_bind, (getitem_run _ _ _ _ _ Hl (index_minus_one _ _ Hb)).
  cbv beta iota. rewrite run_bind.
  (* lines 81-82 leave [ring] behind the reference *)
  assert (Hclose :
    (if decide (a ≠ b)
     then p ← getitem pontos 0; append pontos p
     else mret ()) w
    = (Ret (), World (<[pontos := ring]> (heap w))
                     (stdout w) (disk w) (calls w))).
  { subst ring. destruct (decide (a ≠ b)).
    - rewrite run_bind, (getitem_run _ _ _ _ _ Hl (index_first _ _ Ha)).
      cbv beta iota. by apply append_run.
    - rewrite (insert_id _ _ _ Hl). by destruct w. }
  rewrite Hclose. cbv beta iota.
  rewrite run_bind, (shapely_Polygon_run _ _ ring)
    by (cbn; apply lookup_insert_eq).
  cbn [heap stdout disk calls].
  destruct (polygon_raises lib ring); [reflexivity|]. cbv beta iota.
  rewrite run_bind, set_crs_run. cbn [heap stdout disk calls data geometry].
  destruct (crs_raises lib _); [reflexivity|]. cbv beta iota.
  by rewrite try_to_file_run.
Qed.

(** The writer depends on the hemisphere through the code alone. *)
Lemma criar_shapefile_same_code pontos zona_utm h1 h2 caminho_saida w :
  epsg_code h1 zona_utm = epsg_code h2 zona_utm →
  criar_shapefile lib pontos zona_utm h1 caminho_saida w
  = criar_shapefile lib pontos zona_utm h2 caminho_saida w.
Proof. intros Hc. unfold criar_shapefile. by rewrite Hc. Qed.

(** *** The claims about the writer *)

(** C2: on a list of three points or more, the ring the writer hands to
    the polygon constructor (and, inside the frame, to the driver) is the
    input followed by a copy of its first pair when first and last pair
    differ, and the input itself when they are equal; either way its
    first and last elements are equal. *)
Theorem criar_shapefile_closes_ring
    pontos zona_utm hemisferio caminho_saida w pts a b :
  heap w !! pontos = Some pts →
  (3 ≤ length pts)%nat →
  head pts = Some a →
  last pts = Some b →
  let run := criar_shapefile lib pontos zona_utm hemisferio caminho_saida w in
  ∃ ring rest,
    calls (snd run) = calls w ++ CallPolygon ring :: rest ∧
    (∀ gdf p d, CallToFile gdf p d ∈ rest → geometry gdf = [MkPolygon ring]) ∧
    (a ≠ b → ring = pts ++ [a]) ∧
    (a = b → ring = pts) ∧
    head ring = Some a ∧
    last ring = Some a.
Proof.
  intros Hl Hn Ha Hb run. subst run.
  rewrite (criar_shapefile_run _ _ _ _ _ _ _ _ Hl Hn Ha Hb).
  set (ring := if decide (a ≠ b) then pts ++ [a] else pts).
  assert (Hring : (a ≠ b → ring = pts ++ [a]) ∧ (a = b → ring = pts) ∧
                  head ring = Some a ∧ last ring = Some a).
  { subst ring. destruct (decide (a ≠ b)) as [Hab|Hab].
    - split_and!; [done|done| |apply last_snoc].
      rewrite head_app. by rewrite Ha.
    - apply dec_stable in Hab. subst b. by split_and!. }
  destruct Hring as (Hopen & Hclosed & Hhead & Hlast).
  set (c := EPSG (epsg_code hemisferio zona_utm)).
  set (gdf := GeoDataFrame [1] [MkPolygon ring] (Some c)).
  assert (Hgeom : ∀ (rest : list call),
            rest ⊆ [CallSetCrs c; CallToFile gdf caminho_saida "ESRI Shapefile"] →
            ∀ g p d, CallToFile g p d ∈ rest → geometry g = [MkPolygon ring]).
  { intros rest Hsub g p d Hin. apply Hsub in Hin.
    apply elem_of_cons in Hin as [Hin|Hin]; [discriminate|].
    apply list_elem_of_singleton in Hin. by injection Hin as -> _ _. }
  destruct (polygon_raises lib ring).
  { exists ring, []. split_and!; try done. intros g p d Hin.
    by apply elem_of_nil in Hin. }
  destruct (crs_raises lib c).
  { exists ring, [CallSetCrs c]. cbn [snd calls].
    rewrite <- app_assoc. split_and!; try done.
    apply Hgeom. intros x Hx. apply elem_of_cons. left.
    by apply list_elem_of_singleton in Hx. }
  exists ring, [CallSetCrs c; CallToFile gdf caminho_saida "ESRI Shapefile"].
  split_and!; try done; [|by apply Hgeom].
  destruct (to_file lib gdf caminho_saida (disk w)) as [[[what|]|] files];
    cbn [snd calls]; by rewrite <- !app_assoc.
Qed.

(** The list behind the reference after a run on three points or more,
    whatever the libraries answer. *)
Lemma criar_shapefile_heap pontos zona_utm hemisferio caminho_saida w pts a b :
  heap w !! pontos = Some pts →
  (3 ≤ length pts)%nat →
  head pts = Some a →
  last pts = Some b →
  heap (snd (criar_shapefile lib pontos zona_utm hemisferio caminho_saida w))
  = <[pontos := if decide (a ≠ b) then pts ++ [a] else pts]> (heap w).
Proof.
  intros Hl Hn Ha Hb.
  rewrite (criar_shapefile_run _ _ _ _ _ _ _ _ Hl Hn Ha Hb).
  destruct (polygon_raises lib _); [done|].
  destruct (crs_raises lib _); [done|].
  by destruct (to_file lib _ caminho_saida (disk w)) as [[[what|]|] files].
Qed.

(** C10: the writer appends to the caller's own list: after a run on an
    open ring of three points or more, the list behind the caller's
    reference is the old one with a copy of its first pair at the end;
    after a run on a closed ring the store is what it was; no other list
    is touched. *)
Theorem criar_shapefile_mutates_argument
    pontos zona_utm hemisferio caminho_saida w pts a b :
  heap w !! pontos = Some pts →
  (3 ≤ length pts)%nat →
  head pts = Some a →
  last pts = Some b →
  let run := criar_shapefile lib pontos zona_utm hemisferio caminho_saida w in
  (a ≠ b → heap (snd run) !! pontos = Some (pts ++ [a])) ∧
  (a = b → heap (snd run) !! pontos = Some pts ∧ heap (snd run) = heap w) ∧
  (∀ outra, outra ≠ pontos → heap (snd run) !! outra = heap w !! outra).
Proof.
  intros Hl Hn Ha Hb run. subst run.
  rewrite (criar_shapefile_heap _ _ _ _ _ _ _ _ Hl Hn Ha Hb).
  split_and!.
  - intros Hab. by rewrite decide_True, lookup_insert_eq.
  - intros Hab. rewrite decide_False by (by intros []).
    by rewrite (insert_id _ _ _ Hl).
  - intros outra Hne. by rewrite lookup_insert_ne.
Qed.

(** C9: the length test of line 76 counts list items, closed or not: a
    list [a; b; a], whose first and last items are equal, passes it.  The
    writer prints no minimum-points message, leaves the list as it is and
    hands those three items to the polygon constructor; when the libraries
    raise nothing the run goes on to the driver and returns True. *)
Theorem criar_shapefile_accepts_closed_triple
    pontos zona_utm hemisferio caminho_saida w a b :
  heap w !! pontos = Some [a; b; a] →
  let run := criar_shapefile lib pontos zona_utm hemisferio caminho_saida w in
  let c := EPSG (epsg_code hemisferio zona_utm) in
  let gdf := GeoDataFrame [1] [MkPolygon [a; b; a]] (Some c) in
  (∃ rest, calls (snd run) = calls w ++ CallPolygon [a; b; a] :: rest) ∧
  (∃ msgs, stdout (snd run) = stdout w ++ msgs ∧ MsgMinimoPontos ∉ msgs) ∧
  heap (snd run) = heap w ∧
  (polygon_raises lib [a; b; a] = None →
   crs_raises lib c = None →
   ∀ files, to_file lib gdf caminho_saida (disk w) = (None, files) →
     fst run = Ret true ∧
     disk (snd run) = files ∧
     calls (snd run) =
       calls w ++ [CallPolygon [a; b; a]; CallSetCrs c;
                   CallToFile gdf caminho_saida "ESRI Shapefile"]).
Proof.
  intros Hl run c gdf. subst run.
  assert (Hrun := criar_shapefile_run pontos zona_utm hemisferio caminho_saida
                    w [a; b; a] a a Hl).
  cbv zeta in Hrun. rewrite decide_False in Hrun by (by intros []).
  rewrite (insert_id _ _ _ Hl) in Hrun.
  rewrite Hrun by (done || (simpl; lia)). clear Hrun.
  fold c. fold gdf.
  destruct (polygon_raises lib [a; b; a]) as [e|].
  { split_and!; [by exists []|exists []|done|done].
    split; [by rewrite app_nil_r|apply not_elem_of_nil]. }
  destruct (crs_raises lib c) as [e|].
  { split_and!; [exists [CallSetCrs c]; by rewrite <- app_assoc
                |exists []|done|done].
    split; [by rewrite app_nil_r|apply not_elem_of_nil]. }
  destruct (to_file lib gdf caminho_saida (disk w)) as [[[what|]|] files] eqn:Hf.
  - split_and!; [eexists; by rewrite <- !app_assoc| |done|by intros _ _ ?].
    eexists. split; [reflexivity|]. by intros ?%list_elem_of_singleton.
  - split_and!; [eexists; by rewrite <- !app_assoc| |done|by intros _ _ ?].
    exists []. split; [by rewrite app_nil_r|apply not_elem_of_nil].
  - split_and!; [eexists; by rewrite <- !app_assoc| |done|].
    + eexists. split; [reflexivity|]. by intros ?%list_elem_of_singleton.
    + intros _ _ files' [= <-]. cbn. by rewrite <- !app_assoc.
Qed.

(** C5, as the code has it: a hemisphere whose upper-case form is not S
    is not reported as an error; the writer takes it for the northern
    hemisphere, computes 32600 + zone and runs exactly as it does for N. *)
Theorem criar_shapefile_hemisphere_defaults_north
    pontos zona_utm hemisferio caminho_saida w :
  Str.upper hemisferio ≠ "S" →
  epsg_code hemisferio zona_utm = 32600 + zona_utm ∧
  criar_shapefile lib pontos zona_utm hemisferio caminho_saida w
  = criar_shapefile lib pontos zona_utm "N" caminho_saida w.
Proof.
  intros Hs. split; [by apply epsg_code_not_south|].
  apply criar_shapefile_same_code.
  by rewrite (epsg_code_not_south _ _ Hs).
Qed.

(** *** The pipeline of [main] *)

Lemma ler_arquivo_dxf_run caminho_dxf w :
  ler_arquivo_dxf lib caminho_dxf w =
  let cs := calls w ++ [CallReadfile caminho_dxf] in
  match readfile lib caminho_dxf with
  | Ret doc =>
      (Ret (Some doc),
       World (heap w) (stdout w ++ [MsgCarregado caminho_dxf]) (disk w) cs)
  | Raise (Exception what) =>
      (Ret None,
       World (heap w) (stdout w ++ [MsgErroLeitura (Exception what)])
             (disk w) cs)
  | Raise KeyboardInterrupt =>
      (Raise KeyboardInterrupt, World (heap w) (stdout w) (disk w) cs)
  end.
Proof.
  unfold ler_arquivo_dxf, try_except, ezdxf_readfile, record, lift.
  rewrite !run_bind. cbv beta iota.
  by destruct (readfile lib caminho_dxf) as [doc|[what|]].
Qed.

(** The run of [main_body], by what the loader reads, what the locator
    finds and what the extractor returns. *)
Lemma main_body_cases caminho_dxf nome_base entity_id zona_utm hemisferio w :
  main_body lib caminho_dxf nome_base entity_id zona_utm hemisferio w =
  let caminho_saida := nome_base +:+ "_poligono_" +:+ entity_id in
  let cs := calls w ++ [CallReadfile caminho_dxf] in
  match readfile lib caminho_dxf with
  | Raise KeyboardInterrupt =>
      (Raise KeyboardInterrupt,
       World (heap w) (stdout w ++ [MsgProcessando]) (disk w) cs)
  | Raise (Exception what) =>
      (Ret (),
       World (heap w)
             (stdout w ++ [MsgProcessando; MsgErroLeitura (Exception what)])
             (disk w) cs)
  | Ret doc =>
      match encontrar_loop (modelspace doc) entity_id with
      | None =>
          (Ret (),
           World (heap w)
                 (stdout w ++ [MsgProcessando; MsgCarregado caminho_dxf;
                               MsgNaoEncontrado entity_id])
                 (disk w) cs)
      | Some ent =>
          let out := stdout w ++ [MsgProcessando; MsgCarregado caminho_dxf;
                                  MsgEncontrado (dxftype ent)] in
          match extrair_coordenadas_poligono ent with
          | Raise e => (Raise e, World (heap w) out (disk w) cs)
          | Ret [] =>
              (Ret (), World (heap w) (out ++ [MsgSemCoordenadas]) (disk w) cs)
          | Ret (p :: ps) =>
              let pontos_utm := fresh (dom (heap w)) in
              let w1 :=
                World (<[pontos_utm :=
                           converter_coordenadas_utm lib (p :: ps)
                                                     zona_utm hemisferio]>
                         (heap w))
                      (out ++ [MsgPontosExtraidos (length (p :: ps))])
                      (disk w) cs in
              match criar_shapefile lib pontos_utm zona_utm hemisferio
                                    caminho_saida w1 with
              | (Ret true, w2) =>
                  print (MsgSucesso (arquivos_gerados caminho_saida)
                                    zona_utm hemisferio) w2
              | (Ret false, w2) => print MsgErroConversao w2
              | (Raise e, w2) => (Raise e, w2)
              end
          end
      end
  end.
Proof.
  unfold main_body. cbv zeta.
  rewrite run_bind. unfold print at 1. cbv beta iota.
  rewrite run_bind, ler_arquivo_dxf_run. cbv zeta.
  cbn [heap stdout disk calls].
  destruct (readfile lib caminho_dxf) as [doc|[what|]];
    [|by rewrite <- app_assoc|reflexivity].
  cbv beta iota. rewrite run_bind. unfold encontrar_poligono_por_id. cbv zeta.
  destruct (encontrar_loop (modelspace doc) entity_id) as [ent|].
  2:{ rewrite run_bind. unfold print at 1. cbv beta iota.
      cbn [heap stdout disk calls]. by rewrite <- !app_assoc. }
  unfold mret at 1, M_ret at 1. cbv beta iota.
  rewrite run_bind. unfold print at 1. cbv beta iota.
  cbn [heap stdout disk calls].
  rewrite run_bind. unfold lift at 1.
  rewrite <- !app_assoc. cbn [app].
  destruct (extrair_coordenadas_poligono ent) as [[|p ps]|e];
    [| |reflexivity].
  { cbv beta iota. unfold print. cbn [heap stdout disk calls].
    by rewrite <- !app_assoc. }
  cbv beta iota.
  rewrite run_bind. unfold print at 1. cbv beta iota.
  cbn [heap stdout disk calls].
  rewrite run_bind. unfold alloc at 1. cbv beta iota zeta.
  cbn [heap stdout disk calls].
  rewrite run_bind. rewrite <- !app_assoc. cbn [app].
  match goal with
  | |- context [criar_shapefile ?l ?p ?z ?h ?c ?w'] =>
      destruct (criar_shapefile l p z h c w') as [[[|]|e] w2]
  end; reflexivity.
Qed.

Lemma main_run caminho_dxf nome_base entity_id zona_utm hemisferio w :
  main lib caminho_dxf nome_base entity_id zona_utm hemisferio w =
  match main_body lib caminho_dxf nome_base entity_id zona_utm hemisferio w with
  | (Ret (), w') => (Ret (), w')
  | (Raise KeyboardInterrupt, w') =>
      (Ret (), World (heap w') (stdout w' ++ [MsgCancelado]) (disk w') (calls w'))
  | (Raise (Exception what), w') =>
      (Ret (), World (heap w')
                     (stdout w' ++ [MsgErroInesperado (Exception what)])
                     (disk w') (calls w'))
  end.
Proof.
  unfold main.
  by destruct (main_body _ _ _ _ _ _ w) as [[[]|[what|]] w'].
Qed.

(** Scenario D: a POLYLINE with two vertices goes through the pipeline
    up to the writer's length test and no further. *)
Lemma main_two_vertices caminho_dxf nome_base entity_id zona_utm hemisferio w
    doc h (v1 v2 : vertex (coord := coord)) :
  readfile lib caminho_dxf = Ret doc →
  encontrar_loop (modelspace doc) entity_id = Some (Polyline h [v1; v2]) →
  let run := main lib caminho_dxf nome_base entity_id zona_utm hemisferio w in
  fst run = Ret () ∧
  stdout (snd run)
  = stdout w ++ [MsgProcessando; MsgCarregado caminho_dxf;
                 MsgEncontrado "POLYLINE"; MsgPontosExtraidos 2;
                 MsgMinimoPontos; MsgErroConversao] ∧
  disk (snd run) = disk w ∧
  calls (snd run) = calls w ++ [CallReadfile caminho_dxf].
Proof.
  intros Hdoc Hent run. subst run.
  rewrite main_run, main_body_cases, Hdoc, Hent. cbv zeta.
  rewrite extrair_polyline. cbn [map].
  erewrite criar_shapefile_poucos_pontos.
  - cbn. rewrite <- !app_assoc. done.
  - cbn [heap]. apply lookup_insert_eq.
  - rewrite converter_coordenadas_utm_map. simpl. lia.
Qed.

(** C3: on a list of fewer than three points the writer returns False
    after printing the minimum-points message: it does not raise, does
    not return True, makes no library call and leaves the disk (and the
    list) as they were.  In particular a run of the pipeline on a POLYLINE
    with two vertices ends with that message and the conversion-error
    message, with the disk untouched and no call of the driver. *)
Theorem criar_shapefile_rejects_short_ring
    pontos zona_utm hemisferio caminho_saida w pts :
  heap w !! pontos = Some pts →
  (length pts < 3)%nat →
  let run := criar_shapefile lib pontos zona_utm hemisferio caminho_saida w in
  (fst run = Ret false ∧
   stdout (snd run) = stdout w ++ [MsgMinimoPontos] ∧
   disk (snd run) = disk w ∧
   calls (snd run) = calls w ∧
   heap (snd run) = heap w) ∧
  (∀ caminho_dxf nome_base entity_id w0 doc h (v1 v2 : vertex (coord := coord)),
     readfile lib caminho_dxf = Ret doc →
     encontrar_loop (modelspace doc) entity_id = Some (Polyline h [v1; v2]) →
     let run_main :=
       main lib caminho_dxf nome_base entity_id zona_utm hemisferio w0 in
     fst run_main = Ret () ∧
     stdout (snd run_main)
     = stdout w0 ++ [MsgProcessando; MsgCarregado caminho_dxf;
                     MsgEncontrado "POLYLINE"; MsgPontosExtraidos 2;
                     MsgMinimoPontos; MsgErroConversao] ∧
     disk (snd run_main) = disk w0 ∧
     calls (snd run_main) = calls w0 ++ [CallReadfile caminho_dxf]).
Proof.
  intros Hl Hn run. subst run. split.
  - by rewrite (criar_shapefile_poucos_pontos _ _ _ _ _ _ Hl Hn).
  - intros caminho_dxf nome_base entity_id w0 doc h v1 v2 Hdoc Hent.
    by apply (main_two_vertices _ _ _ _ _ _ doc h v1 v2).
Qed.

(** Every run of the writer either never reaches the driver, or calls it
    once, last, with the base path it was given. *)
Lemma criar_shapefile_outcome pontos zona_utm hemisferio caminho_saida w pts :
  heap w !! pontos = Some pts →
  let run := criar_shapefile lib pontos zona_utm hemisferio caminho_saida w in
  (∃ antes,
     calls (snd run) = calls w ++ antes ∧
     (∀ g p d, CallToFile g p d ∉ antes) ∧
     disk (snd run) = disk w ∧
     ((fst run = Ret false ∧ stdout (snd run) = stdout w ++ [MsgMinimoPontos]) ∨
      (∃ e, fst run = Raise e ∧ stdout (snd run) = stdout w)))
  ∨
  (∃ antes gdf,
     calls (snd run)
     = calls w ++ antes ++ [CallToFile gdf caminho_saida "ESRI Shapefile"] ∧
     (∀ g p d, CallToFile g p d ∉ antes) ∧
     disk (snd run) = snd (to_file lib gdf caminho_saida (disk w)) ∧
     match fst (to_file lib gdf caminho_saida (disk w)) with
     | None =>
         fst run = Ret true ∧
         stdout (snd run) = stdout w ++ [MsgShapefileCriado caminho_saida]
     | Some (Exception what) =>
         fst run = Ret false ∧
         stdout (snd run) = stdout w ++ [MsgErroShapefile (Exception what)]
     | Some KeyboardInterrupt =>
         fst run = Raise KeyboardInterrupt ∧ stdout (snd run) = stdout w
     end).
Proof.
  intros Hl run. subst run.
  destruct (decide (length pts < 3)%nat) as [Hn|Hn].
  { rewrite (criar_shapefile_poucos_pontos _ _ _ _ _ _ Hl Hn).
    left. exists []. cbn. rewrite app_nil_r.
    split_and!; [done|intros g p d; nao_esta|done|by left]. }
  destruct (head pts) as [a|] eqn:Ha;
    [|apply head_None in Ha; subst pts; simpl in Hn; lia].
  destruct (last pts) as [b|] eqn:Hb;
    [|apply last_None in Hb; subst pts; simpl in Hn; lia].
  rewrite (criar_shapefile_run _ _ _ _ _ _ _ _ Hl ltac:(lia) Ha Hb).
  set (ring := if decide (a ≠ b) then pts ++ [a] else pts).
  set (c := EPSG (epsg_code hemisferio zona_utm)).
  set (gdf := GeoDataFrame [1] [MkPolygon ring] (Some c)).
  destruct (polygon_raises lib ring) as [e|].
  { left. exists [CallPolygon ring]. cbn.
    split_and!; [done|intros g p d; nao_esta|done|right; by exists e]. }
  destruct (crs_raises lib c) as [e|].
  { left. exists [CallPolygon ring; CallSetCrs c]. cbn.
    rewrite <- app_assoc.
    split_and!; [done|intros g p d; nao_esta|done|right; by exists e]. }
  right. exists [CallPolygon ring; CallSetCrs c], gdf.
  destruct (to_file lib gdf caminho_saida (disk w)) as [[[what|]|] files];
    cbn; rewrite <- !app_assoc;
    (split_and!; [done|intros g p d; nao_esta|done..]).
Qed.

(** [main] always returns, and announces the four files only after a
    driver call that raised nothing. *)
Lemma main_success_after_driver
    caminho_dxf nome_base entity_id zona_utm hemisferio w :
  let base := nome_base +:+ "_poligono_" +:+ entity_id in
  let run := main lib caminho_dxf nome_base entity_id zona_utm hemisferio w in
  fst run = Ret () ∧
  ∃ msgs,
    stdout (snd run) = stdout w ++ msgs ∧
    ∀ fs z h,
      MsgSucesso fs z h ∈ msgs →
      fs = [base +:+ ".shp"; base +:+ ".shx"; base +:+ ".dbf"; base +:+ ".prj"] ∧
      ∃ gdf,
        CallToFile gdf base "ESRI Shapefile" ∈ calls (snd run) ∧
        fst (to_file lib gdf base (disk w)) = None.
Proof.
  intros base run. subst run.
  rewrite main_run, main_body_cases. cbv zeta. fold base.
  destruct (readfile lib caminho_dxf) as [doc|[what|]].
  2:{ cbn. split; [done|]. eexists. split; [reflexivity|].
      intros fs z h. nao_esta. }
  2:{ cbn. split; [done|]. rewrite <- app_assoc. eexists.
      split; [reflexivity|]. intros fs z h. nao_esta. }
  destruct (encontrar_loop (modelspace doc) entity_id) as [ent|].
  2:{ cbn. split; [done|]. eexists. split; [reflexivity|].
      intros fs z h. nao_esta. }
  destruct (extrair_coordenadas_poligono ent) as [[|p ps]|[what|]].
  { cbn. split; [done|]. rewrite <- app_assoc. eexists.
    split; [reflexivity|]. intros fs z h. nao_esta. }
  2:{ cbn. split; [done|]. rewrite <- app_assoc. eexists.
      split; [reflexivity|]. intros fs z h. nao_esta. }
  2:{ cbn. split; [done|]. rewrite <- app_assoc. eexists.
      split; [reflexivity|]. intros fs z h. nao_esta. }
  match goal with
  | |- context [criar_shapefile lib ?l zona_utm hemisferio base ?w1] =>
      pose proof (criar_shapefile_outcome l zona_utm hemisferio base w1 _
                    (lookup_insert_eq _ _ _)) as Hout;
      destruct (criar_shapefile lib l zona_utm hemisferio base w1)
        as [r w2] eqn:Hrun
  end.
  cbn [fst snd heap stdout disk calls] in Hout.
  destruct Hout as [(antes & Hcalls & Hno & Hdisk & Hres)
                   |(antes & gdf & Hcalls & Hno & Hdisk & Hres)].
  - destruct Hres as [[-> Hout]|(e & -> & Hout)].
    + cbn. split; [done|]. rewrite Hout, <- !app_assoc. eexists.
      split; [reflexivity|]. intros fs z h. nao_esta.
    + destruct e as [what|]; cbn; (split; [done|]);
        rewrite Hout, <- !app_assoc; eexists;
        (split; [reflexivity|]); intros fs z h; nao_esta.
  - destruct (to_file lib gdf base (disk w)) as [[[what|]|] files] eqn:Hf;
      cbn [fst snd] in Hres; destruct Hres as [-> Hout].
    + cbn. split; [done|]. rewrite Hout, <- !app_assoc. eexists.
      split; [reflexivity|]. intros fs z h. nao_esta.
    + cbn. split; [done|]. rewrite Hout, <- !app_assoc. eexists.
      split; [reflexivity|]. intros fs z h. nao_esta.
    + cbn. split; [done|]. rewrite Hout, <- !app_assoc. eexists.
      split; [reflexivity|]. intros fs z h Hin.
      repeat (apply elem_of_cons in Hin as [Hin|Hin]; [discriminate|]).
      apply list_elem_of_singleton in Hin. injection Hin as -> _ _.
      split; [reflexivity|]. exists gdf. split; [|by rewrite Hf].
      rewrite Hcalls, !elem_of_app. right. right.
      by apply list_elem_of_singleton.
Qed.

(** C8: the writer gives the driver one base path for the whole bundle,
    in one call, the last thing it does.  When that call raises an
    exception the writer prints the error and returns False; it returns
    True only when the call raised nothing; and [main] lists the four
    files, all of them that base path with an extension, only after such
    a call. *)
Theorem criar_shapefile_reports_write_failure
    pontos zona_utm hemisferio caminho_saida w pts :
  heap w !! pontos = Some pts →
  let run := criar_shapefile lib pontos zona_utm hemisferio caminho_saida w in
  ((∃ antes,
      calls (snd run) = calls w ++ antes ∧
      (∀ g p d, CallToFile g p d ∉ antes) ∧
      disk (snd run) = disk w ∧
      fst run ≠ Ret true ∧
      MsgShapefileCriado caminho_saida ∉ drop (length (stdout w)) (stdout (snd run)))
   ∨
   (∃ antes gdf,
      calls (snd run)
      = calls w ++ antes ++ [CallToFile gdf caminho_saida "ESRI Shapefile"] ∧
      (∀ g p d, CallToFile g p d ∉ antes) ∧
      disk (snd run) = snd (to_file lib gdf caminho_saida (disk w)) ∧
      match fst (to_file lib gdf caminho_saida (disk w)) with
      | None =>
          fst run = Ret true ∧
          stdout (snd run) = stdout w ++ [MsgShapefileCriado caminho_saida]
      | Some (Exception what) =>
          fst run = Ret false ∧
          stdout (snd run) = stdout w ++ [MsgErroShapefile (Exception what)]
      | Some KeyboardInterrupt =>
          fst run = Raise KeyboardInterrupt ∧ stdout (snd run) = stdout w
      end)) ∧
  (∀ caminho_dxf nome_base entity_id w0,
     let base := nome_base +:+ "_poligono_" +:+ entity_id in
     let run_main :=
       main lib caminho_dxf nome_base entity_id zona_utm hemisferio w0 in
     fst run_main = Ret () ∧
     ∃ msgs,
       stdout (snd run_main) = stdout w0 ++ msgs ∧
       ∀ fs z h,
         MsgSucesso fs z h ∈ msgs →
         fs = [base +:+ ".shp"; base +:+ ".shx";
               base +:+ ".dbf"; base +:+ ".prj"] ∧
         ∃ gdf,
           CallToFile gdf base "ESRI Shapefile" ∈ calls (snd run_main) ∧
           fst (to_file lib gdf base (disk w0)) = None).
Proof.
  intros Hl run. split; [|intros; apply main_success_after_driver].
  destruct (criar_shapefile_outcome pontos zona_utm hemisferio caminho_saida
              w pts Hl)
    as [(antes & Hcalls & Hno & Hdisk & Hres)|Hright]; [|by right].
  left. exists antes. fold run in Hcalls, Hdisk, Hres.
  split_and!; [done..| |].
  - destruct Hres as [[-> _]|(e & -> & _)]; discriminate.
  - destruct Hres as [[_ ->]|(e & _ & ->)].
    + rewrite drop_app_length. nao_esta.
    + rewrite drop_all. apply not_elem_of_nil.
Qed.

(** The code the writer assigns to the frame is [epsg_code]. *)
Lemma criar_shapefile_crs_code pontos zona_utm hemisferio caminho_saida w pts c :
  heap w !! pontos = Some pts →
  let run := criar_shapefile lib pontos zona_utm hemisferio caminho_saida w in
  CallSetCrs c ∈ drop (length (calls w)) (calls (snd run)) →
  c = EPSG (epsg_code hemisferio zona_utm).
Proof.
  intros Hl run. subst run.
  destruct (decide (length pts < 3)%nat) as [Hn|Hn].
  { rewrite (criar_shapefile_poucos_pontos _ _ _ _ _ _ Hl Hn). cbn.
    rewrite drop_all. nao_esta. }
  destruct (head pts) as [a|] eqn:Ha;
    [|apply head_None in Ha; subst pts; simpl in Hn; lia].
  destruct (last pts) as [b|] eqn:Hb;
    [|apply last_None in Hb; subst pts; simpl in Hn; lia].
  rewrite (criar_shapefile_run _ _ _ _ _ _ _ _ Hl ltac:(lia) Ha Hb).
  assert (Hin : ∀ rest : list call,
            CallSetCrs c ∈ rest →
            rest ⊆ [CallPolygon (if decide (a ≠ b) then pts ++ [a] else pts);
                    CallSetCrs (EPSG (epsg_code hemisferio zona_utm));
                    CallToFile
                      (GeoDataFrame [1]
                         [MkPolygon (if decide (a ≠ b) then pts ++ [a] else pts)]
                         (Some (EPSG (epsg_code hemisferio zona_utm))))
                      caminho_saida "ESRI Shapefile"] →
            c = EPSG (epsg_code hemisferio zona_utm)).
  { intros rest Hc Hsub. apply Hsub in Hc.
    apply elem_of_cons in Hc as [Hc|Hc]; [discriminate|].
    apply elem_of_cons in Hc as [Hc|Hc]; [by injection Hc|].
    apply list_elem_of_singleton in Hc. discriminate. }
  destruct (polygon_raises lib _); cbn [snd calls].
  { rewrite drop_app_length. intros Hc. apply (Hin _ Hc).
    intros x Hx. apply list_elem_of_singleton in Hx as ->.
    apply elem_of_cons. by left. }
  destruct (crs_raises lib _); cbn [snd calls].
  { rewrite <- !app_assoc, drop_app_length. cbn [app].
    intros Hc. apply (Hin _ Hc).
    intros x Hx. rewrite !elem_of_cons in Hx. rewrite !elem_of_cons. tauto. }
  destruct (to_file lib _ caminho_saida (disk w)) as [[[what|]|] files];
    cbn [snd calls]; rewrite <- !app_assoc, drop_app_length;
    intros Hc; by apply (Hin _ Hc).
Qed.

(** C1: the code is 32600 + zone for hemisphere N and 32700 + zone for
    hemisphere S, whatever the case of the letter; the three codes of the
    spec come out, lowercase s gives what S gives, and this is the code
    the writer assigns to the frame it writes. *)
Theorem epsg_code_by_hemisphere (h : string) (z : Z) :
  (∀ pontos caminho_saida w pts c,
     heap w !! pontos = Some pts →
     CallSetCrs c ∈ drop (length (calls w))
                         (calls (snd (criar_shapefile lib pontos z h caminho_saida w))) →
     c = EPSG (epsg_code h z)) ∧
  (Str.upper h = "N" → epsg_code h z = 32600 + z) ∧
  (Str.upper h = "S" → epsg_code h z = 32700 + z) ∧
  epsg_code "n" z = 32600 + z ∧
  epsg_code "N" z = 32600 + z ∧
  epsg_code "s" z = 32700 + z ∧
  epsg_code "S" z = 32700 + z ∧
  epsg_code "S" 22 = 32722 ∧
  epsg_code "N" 22 = 32622 ∧
  epsg_code "S" 1 = 32701 ∧
  epsg_code "s" z = epsg_code "S" z.
Proof.
  split_and!; try reflexivity.
  - intros pontos caminho_saida w pts c Hl.
    by apply (criar_shapefile_crs_code _ _ _ _ _ pts).
  - intros Hn. apply epsg_code_not_south. rewrite Hn. discriminate.
  - apply epsg_code_south.
Qed.
End Writer.

(** * The claims at concrete inputs *)

Lemma extrair_coordenadas_poligono_by_kind_witness :
  dxftype (Other (coord := Z) "TEXT" "2B") ≠ "LWPOLYLINE" ∧
  dxftype (Other (coord := Z) "TEXT" "2B") ≠ "POLYLINE" ∧
  extrair_coordenadas_poligono (Other (coord := Z) "TEXT" "2B") = Ret [].
Proof.
  split; [discriminate|]. split; [discriminate|].
  apply (proj1 (proj2 (proj2 (extrair_coordenadas_poligono_by_kind (coord := Z)))));
    discriminate.
Defined.

(** Handle 2B belongs to a text entity only: not found. *)
Lemma encontrar_poligono_por_id_first_match_witness :
  fst (encontrar_poligono_por_id desenho_A "2B" world0) = Ret None.
Proof.
  apply (proj1 (proj2 (proj2
           (encontrar_poligono_por_id_first_match desenho_A "2B" world0)))).
  intros e He Hh. simpl in He.
  apply elem_of_cons in He as [->|He]; [split; discriminate|].
  apply list_elem_of_singleton in He. subst e. discriminate.
Defined.

Lemma criar_shapefile_rejects_short_ring_witness :
  heap (mundo_com segmento) !! 1%positive = Some segmento ∧
  (length segmento < 3)%nat ∧
  fst (criar_shapefile lib_ok 1%positive 22 "S" "saida" (mundo_com segmento))
  = Ret false ∧
  fst (main lib_D "d.dxf" "d" "2F" 22 "S" world0) = Ret ().
Proof.
  assert (Hl : heap (mundo_com segmento) !! 1%positive = Some segmento)
    by reflexivity.
  assert (Hn : (length segmento < 3)%nat) by (simpl; lia).
  split; [exact Hl|]. split; [exact Hn|].
  pose proof (criar_shapefile_rejects_short_ring lib_D 1%positive 22 "S" "saida"
                (mundo_com segmento) segmento Hl Hn) as [_ Hmain].
  pose proof (criar_shapefile_rejects_short_ring lib_ok 1%positive 22 "S" "saida"
                (mundo_com segmento) segmento Hl Hn) as [Hwriter _].
  split; [apply Hwriter|].
  refine (proj1 (Hmain "d.dxf" "d" "2F" world0 desenho_D "2F"
                       (Vertex (Vec3 0 0 0)) (Vertex (Vec3 10 0 5)) _ _));
    reflexivity.
Defined.

Lemma criar_shapefile_closes_ring_witness :
  ∃ ring rest,
    calls (snd (criar_shapefile lib_ok 1%positive 23 "S" "saida"
                                (mundo_com triangulo)))
    = CallPolygon ring :: rest ∧
    ring = triangulo ++ [(500000, 7500000)] ∧
    last ring = Some (500000, 7500000).
Proof.
  destruct (criar_shapefile_closes_ring lib_ok 1%positive 23 "S" "saida"
              (mundo_com triangulo) triangulo
              (500000, 7500000) (500100, 7500100))
    as (ring & rest & Hcalls & _ & Hopen & _ & _ & Hlast);
    [reflexivity|simpl; lia|reflexivity|reflexivity|].
  exists ring, rest. split; [exact Hcalls|]. split; [|exact Hlast].
  apply Hopen. discriminate.
Defined.

Lemma criar_shapefile_mutates_argument_witness :
  heap (snd (criar_shapefile lib_ok 1%positive 23 "S" "saida"
                             (mundo_com triangulo))) !! 1%positive
  = Some (triangulo ++ [(500000, 7500000)]).
Proof.
  apply (criar_shapefile_mutates_argument lib_ok 1%positive 23 "S" "saida"
           (mundo_com triangulo) triangulo
           (500000, 7500000) (500100, 7500100));
    [reflexivity|simpl; lia|reflexivity|reflexivity|].
  discriminate.
Defined.

Lemma criar_shapefile_accepts_closed_triple_witness :
  fst (criar_shapefile lib_ok 1%positive 23 "S" "saida" (mundo_com vai_e_volta))
  = Ret true.
Proof.
  refine (proj1 (proj2 (proj2 (proj2
            (criar_shapefile_accepts_closed_triple lib_ok 1%positive 23 "S"
               "saida" (mundo_com vai_e_volta)
               (500000, 7500000) (500100, 7500000) _))) _ _ _ _));
    reflexivity.
Defined.

Lemma criar_shapefile_hemisphere_defaults_north_witness :
  Str.upper "X" ≠ "S" ∧
  epsg_code "X" 22 = 32600 + 22.
Proof.
  assert (Hx : Str.upper "X" ≠ "S") by discriminate.
  split; [exact Hx|].
  apply (criar_shapefile_hemisphere_defaults_north lib_ok 1%positive 22 "X"
           "saida" (mundo_com triangulo) Hx).
Defined.

(** C5 fails on the code: hemisphere X is neither N nor S, and the writer,
    given a triangle, computes code 32622, calls the driver and returns
    True. *)
Lemma hemisphere_X_is_written :
  Str.upper "X" ≠ "N" ∧
  Str.upper "X" ≠ "S" ∧
  let run := criar_shapefile lib_ok 1%positive 22 "X" "saida" (mundo_com triangulo) in
  fst run = Ret true ∧
  stdout (snd run) = [MsgShapefileCriado "saida"] ∧
  (∃ gdf, last (calls (snd run)) = Some (CallToFile gdf "saida" "ESRI Shapefile") ∧
          crs gdf = Some (EPSG 32622)) ∧
  "saida.shp" ∈ disk (snd run).
Proof.
  split; [discriminate|]. split; [discriminate|].
  cbv zeta. split_and!.
  - reflexivity.
  - reflexivity.
  - eexists. split; reflexivity.
  - vm_compute. reflexivity.
Defined.

(** A driver that raises after leaving the geometry file behind: the
    writer returns False. *)
Lemma criar_shapefile_reports_write_failure_witness :
  fst (criar_shapefile lib_disco_cheio 1%positive 22 "S" "saida"
                       (mundo_com triangulo))
  ≠ Ret true.
Proof.
  destruct (criar_shapefile_reports_write_failure lib_disco_cheio 1%positive 22
              "S" "saida" (mundo_com triangulo) triangulo eq_refl)
    as [[(antes & _ & _ & _ & Hne & _)|(antes & gdf & _ & _ & _ & Hres)] _].
  - exact Hne.
  - change (fst (to_file lib_disco_cheio gdf "saida" (disk (mundo_com triangulo))))
      with (Some (Exception "OSError")) in Hres.
    destruct Hres as [-> _]. discriminate.
Defined.

Lemma epsg_code_by_hemisphere_witness :
  Str.upper "n" = "N" ∧ epsg_code "n" 22 = 32600 + 22.
Proof.
  split; [reflexivity|].
  apply (proj1 (proj2 (epsg_code_by_hemisphere lib_ok "n" 22))). reflexivity.
Defined.

(** ** The spec's scenarios, run *)

(** Scenario A: the triangle of handle 1A, zone 23, hemisphere S. *)
Example scenario_A :
  let run := main lib_ok "planta.dxf" "planta" "1A" 23 "S" world0 in
  calls (snd run) =
    [CallReadfile "planta.dxf";
     CallPolygon (triangulo ++ [(500000, 7500000)]);
     CallSetCrs (EPSG 32723);
     CallToFile
       (GeoDataFrame [1] [MkPolygon (triangulo ++ [(500000, 7500000)])]
                     (Some (EPSG 32723)))
       "planta_poligono_1A" "ESRI Shapefile"] ∧
  last (stdout (snd run)) =
    Some (MsgSucesso ["planta_poligono_1A.shp"; "planta_poligono_1A.shx";
                      "planta_poligono_1A.dbf"; "planta_poligono_1A.prj"]
                     23 "S").
Proof. split; reflexivity. Qed.

(** Scenarios B and C: an absent handle, and the handle of a text entity. *)
Example scenario_B_C :
  stdout (snd (main lib_ok "planta.dxf" "planta" "3C" 23 "S" world0))
  = [MsgProcessando; MsgCarregado "planta.dxf"; MsgNaoEncontrado "3C"] ∧
  stdout (snd (main lib_ok "planta.dxf" "planta" "2B" 23 "S" world0))
  = [MsgProcessando; MsgCarregado "planta.dxf"; MsgNaoEncontrado "2B"] ∧
  disk (snd (main lib_ok "planta.dxf" "planta" "2B" 23 "S" world0)) = ∅.
Proof. split_and!; reflexivity. Qed.

(** A driver that fails half way: the file it left is on disk, and the run
    ends with the two error messages. *)
Example disco_cheio :
  let run := main lib_disco_cheio "planta.dxf" "planta" "1A" 23 "S" world0 in
  stdout (snd run) =
    [MsgProcessando; MsgCarregado "planta.dxf"; MsgEncontrado "LWPOLYLINE";
     MsgPontosExtraidos 3; MsgErroShapefile (Exception "OSError");
     MsgErroConversao] ∧
  elements (disk (snd run)) = ["planta_poligono_1A.shp"].
Proof. split; vm_compute; reflexivity. Qed.

(** * Further properties of the script *)

(** ** Upper case, blanks and the hemisphere prompt *)

Lemma upper_ascii_idempotent (c : ascii) :
  Str.upper_ascii (Str.upper_ascii c) = Str.upper_ascii c.
Proof.
  unfold Str.upper_ascii.
  destruct ((97 <=? N_of_ascii c) && (N_of_ascii c <=? 122))%N eqn:Hrange.
  - apply andb_prop in Hrange as [Hlo Hhi]. apply N.leb_le in Hlo, Hhi.
    rewrite N_ascii_embedding by lia.
    destruct (N.leb_spec 97 (N_of_ascii c - 32)); [lia|]. reflexivity.
  - by rewrite Hrange.
Qed.

Lemma upper_idempotent (s : string) : Str.upper (Str.upper s) = Str.upper s.
Proof.
  induction s as [|c s IH]; [reflexivity|].
  simpl. by rewrite upper_ascii_idempotent, IH.
Qed.






(** ** The code identifies zone and hemisphere *)

(** X15: no range check is made on the zone, but for zones from 0 to 99
    (so for the sixty real ones) the code determines both the zone and the
    hemisphere; outside that range codes collide: zone z + 100 in the north
    has the code of zone z in the south. *)
Theorem epsg_code_decodes (h1 h2 : string) (z1 z2 : Z) :
  (0 ≤ z1 < 100 → 0 ≤ z2 < 100 →
   epsg_code h1 z1 = epsg_code h2 z2 →
   z1 = z2 ∧ (Str.upper h1 = "S" ↔ Str.upper h2 = "S")) ∧
  (0 ≤ z1 < 100 →
   z1 = epsg_code h1 z1 `mod` 100 ∧
   (Str.upper h1 = "S" ↔ 32700 ≤ epsg_code h1 z1)) ∧
  epsg_code "N" (z1 + 100) = epsg_code "S" z1.
Proof.
  unfold epsg_code. split_and!.
  - intros Hz1 Hz2. repeat case_decide; intros Heq; split; (lia || tauto).
  - intros Hz1. case_decide; split.
    + replace (32700 + z1) with (z1 + 327 * 100) by lia.
      rewrite Z.mod_add by lia. by rewrite Z.mod_small.
    + split; [lia|done].
    + replace (32600 + z1) with (z1 + 326 * 100) by lia.
      rewrite Z.mod_add by lia. by rewrite Z.mod_small.
    + split; [done|lia].
  - rewrite decide_False by discriminate. rewrite decide_True by reflexivity.
    lia.
Qed.

Lemma epsg_code_decodes_witness :
  22 = epsg_code "s" 22 `mod` 100 ∧ 32700 ≤ epsg_code "s" 22.
Proof.
  destruct (proj1 (proj2 (epsg_code_decodes "s" "s" 22 22))) as [Hz Hs]; [lia|].
  split; [exact Hz|]. apply Hs. reflexivity.
Defined.

Lemma head_map_option {A B : Type} (f : A → B) (l : list A) :
  head (map f l) = f <$> head l.
Proof. by destruct l. Qed.

Lemma last_map_option {A B : Type} (f : A → B) (l : list A) :
  last (map f l) = f <$> last l.
Proof.
  induction l as [|x [|y l] IH]; [reflexivity..|].
  change (map f (x :: y :: l)) with (f x :: f y :: map f l).
  rewrite !last_cons_cons. exact IH.
Qed.

Section MoreStages.
Context {coord : Type} `{!EqDecision coord}.
Implicit Types (ent : entity (coord := coord)) (msp : list (entity (coord := coord))).
Implicit Types (w : world (coord := coord)) (lib : library (coord := coord)).

(** ** Drawing loader *)

(** X1: the loader never lets an [Exception] out: when [ezdxf.readfile]
    raises one it prints the reading error and returns None, when it
    returns a drawing the loader prints that it is loaded and returns it;
    only a [KeyboardInterrupt] passes through.  Either way it makes that one
    call and leaves lists and disk alone. *)
Theorem ler_arquivo_dxf_catches_exceptions lib caminho_dxf w :
  let run := ler_arquivo_dxf lib caminho_dxf w in
  (∀ what, fst run ≠ Raise (Exception what)) ∧
  (∀ doc, fst run = Ret (Some doc) ↔ readfile lib caminho_dxf = Ret doc) ∧
  (fst run = Ret None ↔
     ∃ what, readfile lib caminho_dxf = Raise (Exception what)) ∧
  (fst run = Raise KeyboardInterrupt ↔
     readfile lib caminho_dxf = Raise KeyboardInterrupt) ∧
  (∀ doc, readfile lib caminho_dxf = Ret doc →
     stdout (snd run) = stdout w ++ [MsgCarregado caminho_dxf]) ∧
  (∀ what, readfile lib caminho_dxf = Raise (Exception what) →
     stdout (snd run) = stdout w ++ [MsgErroLeitura (Exception what)]) ∧
  heap (snd run) = heap w ∧
  disk (snd run) = disk w ∧
  calls (snd run) = calls w ++ [CallReadfile caminho_dxf].
Proof.
  cbv zeta. rewrite ler_arquivo_dxf_run. cbv zeta.
  destruct (readfile lib caminho_dxf) as [doc|[what|]]; cbn.
  - split_and!; try done.
    + intros doc'. split; congruence.
    + split; [done|]. by intros [what ?].
  - split_and!; try done.
    + split; [|done]. intros _. by exists what.
    + by intros what' [= ->].
  - split_and!; try done.
    split; [done|]. by intros [what ?].
Qed.

(** ** Entity locator *)

Lemma encontrar_poligono_por_id_fst (doc : drawing (coord := coord)) entity_id w :
  fst (encontrar_poligono_por_id doc entity_id w)
  = Ret (encontrar_loop (modelspace doc) entity_id).
Proof.
  unfold encontrar_poligono_por_id. cbv zeta.
  by destruct (encontrar_loop (modelspace doc) entity_id).
Qed.

Lemma encontrar_loop_app msp1 msp2 entity_id :
  encontrar_loop (msp1 ++ msp2) entity_id
  = match encontrar_loop msp1 entity_id with
    | Some ent => Some ent
    | None => encontrar_loop msp2 entity_id
    end.
Proof.
  induction msp1 as [|ent msp1 IH]; [reflexivity|].
  cbn [app encontrar_loop]. by repeat case_decide.
Qed.

(** X2: the search stops at the first match: on a model space made of two
    parts the locator answers what it answers on the first part when that
    is an entity, and what it answers on the second part otherwise.  So
    entities added after a match never change the answer. *)
Theorem encontrar_poligono_por_id_app msp1 msp2 entity_id w :
  fst (encontrar_poligono_por_id (Drawing (msp1 ++ msp2)) entity_id w)
  = match fst (encontrar_poligono_por_id (Drawing msp1) entity_id w) with
    | Ret (Some ent) => Ret (Some ent)
    | _ => fst (encontrar_poligono_por_id (Drawing msp2) entity_id w)
    end.
Proof.
  rewrite !encontrar_poligono_por_id_fst. cbn [modelspace].
  rewrite encontrar_loop_app.
  by destruct (encontrar_loop msp1 entity_id).
Qed.

(** X3: in a drawing whose handles are all different, the locator returns
    an entity exactly when it is the entity of the model space with the
    requested handle and it is an LWPOLYLINE or a POLYLINE, wherever it
    stands. *)
Theorem encontrar_poligono_por_id_unique_handles
    (doc : drawing (coord := coord)) entity_id w ent :
  NoDup (handle <$> modelspace doc) →
  fst (encontrar_poligono_por_id doc entity_id w) = Ret (Some ent) ↔
  ent ∈ modelspace doc ∧ qualifica entity_id ent.
Proof.
  intros Hnodup. rewrite encontrar_poligono_por_id_fst. split.
  - intros [= Hloop].
    apply encontrar_loop_Some in Hloop as (antes & depois & Hm & Hq & _).
    split; [|done]. rewrite Hm, elem_of_app, elem_of_cons. tauto.
  - intros [Hin Hq]. f_equal. apply encontrar_loop_Some.
    apply list_elem_of_split in Hin as (antes & depois & Hm).
    exists antes, depois. split_and!; [done..|].
    apply Forall_forall. intros e He [_ Hh].
    rewrite Hm, fmap_app, fmap_cons in Hnodup.
    apply NoDup_app in Hnodup as (_ & Hdisj & _).
    apply (Hdisj (handle e)).
    + apply list_elem_of_fmap. by exists e.
    + apply elem_of_cons. left. destruct Hq as [_ Hh']. congruence.
Qed.

(** X4: the kinds the locator lets through are the kinds the extractor has
    a loop for: on an entity the locator returned, the extractor never
    raises and never falls through to the empty default; it returns the
    (x, y) of the entity's own points or vertices. *)
Theorem located_entity_is_extracted
    (doc : drawing (coord := coord)) entity_id w ent :
  Forall entidade_coerente (modelspace doc) →
  fst (encontrar_poligono_por_id doc entity_id w) = Ret (Some ent) →
  (∃ h points,
     ent = LWPolyline h points ∧ h = entity_id ∧
     extrair_coordenadas_poligono ent
     = Ret (map (fun p => (lw_x p, lw_y p)) points)) ∨
  (∃ h vs,
     ent = Polyline h vs ∧ h = entity_id ∧
     extrair_coordenadas_poligono ent
     = Ret (map (fun v => (vec_x (location v), vec_y (location v))) vs)).
Proof.
  intros Hwf. rewrite encontrar_poligono_por_id_fst. intros [= Hloop].
  apply encontrar_loop_Some in Hloop as (antes & depois & Hm & [Hk Hh] & _).
  rewrite Forall_forall in Hwf.
  assert (Hent : entidade_coerente ent).
  { apply Hwf. rewrite Hm, elem_of_app, elem_of_cons. tauto. }
  destruct ent as [h points|h vs|ty h].
  - left. exists h, points. split_and!; [done..|]. apply extrair_lwpolyline.
  - right. exists h, vs. split_and!; [done..|]. apply extrair_polyline.
  - by destruct Hent.
Qed.

(** ** Coordinate normalisation *)

(** X5: normalisation rounds the first point into the first point and the
    last into the last, so a ring that comes in closed goes out closed; and
    the result is empty only for an empty input. *)
Theorem converter_coordenadas_utm_keeps_closed lib (pontos : list point)
    zona_utm hemisferio :
  let pontos_utm := converter_coordenadas_utm lib pontos zona_utm hemisferio in
  head pontos_utm
  = (fun p => (round16 lib p.1, round16 lib p.2)) <$> head pontos ∧
  last pontos_utm
  = (fun p => (round16 lib p.1, round16 lib p.2)) <$> last pontos ∧
  (head pontos = last pontos → head pontos_utm = last pontos_utm) ∧
  (pontos_utm = [] ↔ pontos = []).
Proof.
  cbv zeta. rewrite converter_coordenadas_utm_map.
  rewrite head_map_option, last_map_option.
  split_and!; [done|done| |].
  - intros Heq. by f_equal.
  - destruct pontos; split; (done || discriminate).
Qed.

(** X6: each point is rounded on its own: normalising a list made of two
    parts gives the two normalised parts, one after the other. *)
Theorem converter_coordenadas_utm_app lib (pontos1 pontos2 : list point)
    zona_utm hemisferio :
  converter_coordenadas_utm lib (pontos1 ++ pontos2) zona_utm hemisferio
  = converter_coordenadas_utm lib pontos1 zona_utm hemisferio
    ++ converter_coordenadas_utm lib pontos2 zona_utm hemisferio.
Proof. by rewrite !converter_coordenadas_utm_map, map_app. Qed.
End MoreStages.

(** ** Vector writer and pipeline *)

Section MoreWriter.
Context {coord : Type} `{!EqDecision coord}.
Context (lib : library (coord := coord)).
Implicit Types (w : world (coord := coord)) (pts ring : list (point (coord := coord))).
Implicit Types (a b : point (coord := coord)).

(** The list lines 81-82 leave behind starts and ends with the first
    point, and is the old list or one longer. *)
Lemma anel_fechado pts a b :
  head pts = Some a →
  last pts = Some b →
  let ring := if decide (a ≠ b) then pts ++ [a] else pts in
  head ring = Some a ∧ last ring = Some a ∧
  (length pts ≤ length ring ≤ S (length pts))%nat.
Proof.
  intros Ha Hb. cbv zeta. destruct (decide (a ≠ b)) as [Hab|Hab].
  - rewrite head_app, Ha, last_snoc, length_app. simpl. split_and!; (done || lia).
  - apply dec_stable in Hab. subst b. split_and!; (done || lia).
Qed.

Lemma criar_shapefile_frame pontos zona_utm hemisferio caminho_saida w pts outra :
  heap w !! pontos = Some pts →
  outra ≠ pontos →
  heap (snd (criar_shapefile lib pontos zona_utm hemisferio caminho_saida w))
    !! outra
  = heap w !! outra.
Proof.
  intros Hl Hne.
  destruct (decide (length pts < 3)%nat) as [Hn|Hn].
  { by rewrite (criar_shapefile_poucos_pontos _ _ _ _ _ _ _ Hl Hn). }
  destruct (head pts) as [a|] eqn:Ha;
    [|apply head_None in Ha; subst pts; simpl in Hn; lia].
  destruct (last pts) as [b|] eqn:Hb;
    [|apply last_None in Hb; subst pts; simpl in Hn; lia].
  rewrite (criar_shapefile_heap _ _ _ _ _ _ _ _ _ Hl ltac:(lia) Ha Hb).
  by rewrite lookup_insert_ne.
Qed.

(** X7: the writer appends at most once: after a run on a list of three
    points or more, the list is closed and at most one longer, and a second
    run on it, with any arguments and any libraries, leaves the store as
    the first run left it. *)
Theorem criar_shapefile_appends_once
    (lib' : library (coord := coord))
    pontos zona_utm hemisferio caminho_saida zona_utm' hemisferio' caminho_saida'
    w pts :
  heap w !! pontos = Some pts →
  (3 ≤ length pts)%nat →
  let w1 := snd (criar_shapefile lib pontos zona_utm hemisferio caminho_saida w) in
  (∃ ring, heap w1 !! pontos = Some ring ∧ head ring = last ring ∧
           (length pts ≤ length ring ≤ S (length pts))%nat) ∧
  heap (snd (criar_shapefile lib' pontos zona_utm' hemisferio' caminho_saida' w1))
  = heap w1.
Proof.
  intros Hl Hn.
  destruct (head pts) as [a|] eqn:Ha;
    [|apply head_None in Ha; subst pts; simpl in Hn; lia].
  destruct (last pts) as [b|] eqn:Hb;
    [|apply last_None in Hb; subst pts; simpl in Hn; lia].
  cbv zeta.
  pose proof (criar_shapefile_heap lib _ zona_utm hemisferio caminho_saida
                _ _ _ _ Hl Hn Ha Hb) as Hheap.
  destruct (anel_fechado pts a b Ha Hb) as (Hhead & Hlast & Hlen).
  set (ring := if decide (a ≠ b) then pts ++ [a] else pts) in *.
  set (w1 := snd (criar_shapefile lib pontos zona_utm hemisferio caminho_saida w))
    in *.
  assert (Hl1 : heap w1 !! pontos = Some ring)
    by (rewrite Hheap; apply lookup_insert_eq).
  split.
  - exists ring. split_and!; [done|congruence|lia|lia].
  - rewrite (criar_shapefile_heap lib' _ _ _ _ _ ring a a Hl1 ltac:(lia)
               Hhead Hlast).
    rewrite decide_False by (by intros []).
    by apply insert_id.
Qed.

(** X8: the [try] of lines 98-104 covers the driver only.  When the polygon
    constructor or the assignment of the code raises, the writer raises the
    same exception instead of returning False: it prints nothing, never
    reaches the driver and leaves the disk alone, but the caller's list has
    already been closed. *)
Theorem criar_shapefile_library_errors_propagate
    pontos zona_utm hemisferio caminho_saida w pts a b :
  heap w !! pontos = Some pts →
  (3 ≤ length pts)%nat →
  head pts = Some a →
  last pts = Some b →
  let ring := if decide (a ≠ b) then pts ++ [a] else pts in
  let c := EPSG (epsg_code hemisferio zona_utm) in
  let run := criar_shapefile lib pontos zona_utm hemisferio caminho_saida w in
  (∀ e, polygon_raises lib ring = Some e →
     run = (Raise e,
            World (<[pontos := ring]> (heap w)) (stdout w) (disk w)
                  (calls w ++ [CallPolygon ring]))) ∧
  (∀ e, polygon_raises lib ring = None → crs_raises lib c = Some e →
     run = (Raise e,
            World (<[pontos := ring]> (heap w)) (stdout w) (disk w)
                  (calls w ++ [CallPolygon ring; CallSetCrs c]))).
Proof.
  intros Hl Hn Ha Hb. cbv zeta.
  rewrite (criar_shapefile_run _ _ _ _ _ _ _ _ _ Hl Hn Ha Hb).
  split.
  - by intros e ->.
  - intros e -> ->. by rewrite <- app_assoc.
Qed.

(** X17: the writer looks at the hemisphere through [upper] only: two
    hemisphere strings with the same upper-case form give the same run, and
    every string gives the run of its upper-case form. *)
Theorem criar_shapefile_ignores_case
    pontos zona_utm h1 h2 caminho_saida w :
  (Str.upper h1 = Str.upper h2 →
   criar_shapefile lib pontos zona_utm h1 caminho_saida w
   = criar_shapefile lib pontos zona_utm h2 caminho_saida w) ∧
  criar_shapefile lib pontos zona_utm (Str.upper h1) caminho_saida w
  = criar_shapefile lib pontos zona_utm h1 caminho_saida w.
Proof.
  split.
  - intros Hup. apply criar_shapefile_same_code. unfold epsg_code.
    by rewrite Hup.
  - apply criar_shapefile_same_code. unfold epsg_code.
    by rewrite upper_idempotent.
Qed.

(** *** [main] *)

(** [main] from the prompts to the writer, when the drawing parses, the
    locator finds an entity and the extractor returns points. *)
Lemma main_reaches_writer
    caminho_dxf nome_base entity_id zona_utm hemisferio w doc ent pontos :
  readfile lib caminho_dxf = Ret doc →
  encontrar_loop (modelspace doc) entity_id = Some ent →
  extrair_coordenadas_poligono ent = Ret pontos →
  pontos ≠ [] →
  let caminho_saida := nome_base +:+ "_poligono_" +:+ entity_id in
  let pontos_utm := fresh (dom (heap w)) in
  let w1 :=
    World (<[pontos_utm :=
               converter_coordenadas_utm lib pontos zona_utm hemisferio]>
             (heap w))
          (stdout w ++ [MsgProcessando; MsgCarregado caminho_dxf;
                        MsgEncontrado (dxftype ent);
                        MsgPontosExtraidos (length pontos)])
          (disk w)
          (calls w ++ [CallReadfile caminho_dxf]) in
  main lib caminho_dxf nome_base entity_id zona_utm hemisferio w =
  match criar_shapefile lib pontos_utm zona_utm hemisferio caminho_saida w1 with
  | (Ret true, w2) =>
      (Ret (),
       World (heap w2)
             (stdout w2 ++ [MsgSucesso (arquivos_gerados caminho_saida)
                                       zona_utm hemisferio])
             (disk w2) (calls w2))
  | (Ret false, w2) =>
      (Ret (), World (heap w2) (stdout w2 ++ [MsgErroConversao])
                     (disk w2) (calls w2))
  | (Raise KeyboardInterrupt, w2) =>
      (Ret (), World (heap w2) (stdout w2 ++ [MsgCancelado]) (disk w2) (calls w2))
  | (Raise (Exception what), w2) =>
      (Ret (), World (heap w2)
                     (stdout w2 ++ [MsgErroInesperado (Exception what)])
                     (disk w2) (calls w2))
  end.
Proof.
  intros Hdoc Hent Hpts Hne. cbv zeta.
  rewrite main_run, main_body_cases, Hdoc, Hent, Hpts. cbv zeta.
  destruct pontos as [|p ps]; [done|].
  rewrite <- !app_assoc. cbn [app].
  match goal with
  | |- context [criar_shapefile lib ?l ?z ?h ?c ?w'] =>
      destruct (criar_shapefile lib l z h c w') as [[[|]|[what|]] w2]
  end; reflexivity.
Qed.


(** X13: end to end.  When the drawing parses, the locator finds an entity
    with three points or more and no library raises, [main] hands the
    driver one frame under the path stem_poligono_id: its polygon is the
    rounded points, plus the first of them when they do not end with it,
    and its code is [epsg_code]; the disk is what the driver left, and the
    last line printed lists the four files. *)
Theorem main_writes_the_rounded_ring
    caminho_dxf nome_base entity_id zona_utm hemisferio w
    doc ent pontos a b files :
  let caminho_saida := nome_base +:+ "_poligono_" +:+ entity_id in
  let pontos_utm := converter_coordenadas_utm lib pontos zona_utm hemisferio in
  let ring := if decide (a ≠ b) then pontos_utm ++ [a] else pontos_utm in
  let c := EPSG (epsg_code hemisferio zona_utm) in
  let gdf := GeoDataFrame [1] [MkPolygon ring] (Some c) in
  readfile lib caminho_dxf = Ret doc →
  encontrar_loop (modelspace doc) entity_id = Some ent →
  extrair_coordenadas_poligono ent = Ret pontos →
  (3 ≤ length pontos)%nat →
  head pontos_utm = Some a →
  last pontos_utm = Some b →
  polygon_raises lib ring = None →
  crs_raises lib c = None →
  to_file lib gdf caminho_saida (disk w) = (None, files) →
  let run := main lib caminho_dxf nome_base entity_id zona_utm hemisferio w in
  fst run = Ret () ∧
  stdout (snd run)
  = stdout w ++ [MsgProcessando; MsgCarregado caminho_dxf;
                 MsgEncontrado (dxftype ent);
                 MsgPontosExtraidos (length pontos);
                 MsgShapefileCriado caminho_saida;
                 MsgSucesso (arquivos_gerados caminho_saida)
                            zona_utm hemisferio] ∧
  disk (snd run) = files ∧
  calls (snd run)
  = calls w ++ [CallReadfile caminho_dxf; CallPolygon ring; CallSetCrs c;
                CallToFile gdf caminho_saida "ESRI Shapefile"] ∧
  head ring = last ring.
Proof.
  intros caminho_saida pontos_utm ring c gdf
         Hdoc Hent Hpts Hn Ha Hb Hpol Hcrs Hfile run.
  subst run.
  assert (Hne : pontos ≠ []) by (intros ->; simpl in Hn; lia).
  rewrite (main_reaches_writer _ _ _ _ _ _ _ _ _ Hdoc Hent Hpts Hne).
  cbv zeta. fold caminho_saida. fold pontos_utm.
  erewrite criar_shapefile_run;
    [|cbn [heap]; apply lookup_insert_eq
     |unfold pontos_utm; by rewrite converter_coordenadas_utm_map, length_map
     |exact Ha|exact Hb].
  cbv zeta. fold ring. fold c. fold gdf. cbn [disk].
  rewrite Hpol, Hcrs, Hfile. cbn.
  destruct (anel_fechado pontos_utm a b Ha Hb) as (Hhead & Hlast & _).
  fold ring in Hhead, Hlast.
  split_and!; [done| |done| |congruence]; by rewrite <- !app_assoc.
Qed.

(** X9: an exception of the polygon constructor or of the code assignment
    reaches the last handler of [main]: the run ends with the
    unexpected-error message and not with the conversion-error one, the
    driver is never called and the disk is left alone. *)
Theorem main_reports_unexpected_error
    caminho_dxf nome_base entity_id zona_utm hemisferio w
    doc ent pontos a b what :
  let pontos_utm := converter_coordenadas_utm lib pontos zona_utm hemisferio in
  let ring := if decide (a ≠ b) then pontos_utm ++ [a] else pontos_utm in
  let c := EPSG (epsg_code hemisferio zona_utm) in
  readfile lib caminho_dxf = Ret doc →
  encontrar_loop (modelspace doc) entity_id = Some ent →
  extrair_coordenadas_poligono ent = Ret pontos →
  (3 ≤ length pontos)%nat →
  head pontos_utm = Some a →
  last pontos_utm = Some b →
  polygon_raises lib ring = Some (Exception what) ∨
  (polygon_raises lib ring = None ∧ crs_raises lib c = Some (Exception what)) →
  let run := main lib caminho_dxf nome_base entity_id zona_utm hemisferio w in
  fst run = Ret () ∧
  stdout (snd run)
  = stdout w ++ [MsgProcessando; MsgCarregado caminho_dxf;
                 MsgEncontrado (dxftype ent);
                 MsgPontosExtraidos (length pontos);
                 MsgErroInesperado (Exception what)] ∧
  disk (snd run) = disk w ∧
  (∃ novas, calls (snd run) = calls w ++ novas ∧
            ∀ g p d, CallToFile g p d ∉ novas).
Proof.
  intros pontos_utm ring c Hdoc Hent Hpts Hn Ha Hb Hraise run. subst run.
  assert (Hne : pontos ≠ []) by (intros ->; simpl in Hn; lia).
  rewrite (main_reaches_writer _ _ _ _ _ _ _ _ _ Hdoc Hent Hpts Hne).
  cbv zeta. fold pontos_utm.
  erewrite criar_shapefile_run;
    [|cbn [heap]; apply lookup_insert_eq
     |unfold pontos_utm; by rewrite converter_coordenadas_utm_map, length_map
     |exact Ha|exact Hb].
  cbv zeta. fold ring. fold c.
  destruct Hraise as [Hpol|[Hpol Hcrs]].
  - rewrite Hpol. cbn. rewrite <- !app_assoc.
    split_and!; [done..|]. eexists. split; [reflexivity|].
    intros g p d. nao_esta.
  - rewrite Hpol, Hcrs. cbn. rewrite <- !app_assoc.
    split_and!; [done..|]. eexists. split; [reflexivity|].
    intros g p d. nao_esta.
Qed.

(** X16: a [KeyboardInterrupt] raised inside the driver is not a write
    error: the writer's [except Exception] lets it through, [main] prints
    the cancellation message instead of an error and returns, and the disk
    stays as the interrupted driver left it. *)
Theorem main_interrupted_write
    caminho_dxf nome_base entity_id zona_utm hemisferio w
    doc ent pontos a b files :
  let caminho_saida := nome_base +:+ "_poligono_" +:+ entity_id in
  let pontos_utm := converter_coordenadas_utm lib pontos zona_utm hemisferio in
  let ring := if decide (a ≠ b) then pontos_utm ++ [a] else pontos_utm in
  let c := EPSG (epsg_code hemisferio zona_utm) in
  let gdf := GeoDataFrame [1] [MkPolygon ring] (Some c) in
  readfile lib caminho_dxf = Ret doc →
  encontrar_loop (modelspace doc) entity_id = Some ent →
  extrair_coordenadas_poligono ent = Ret pontos →
  (3 ≤ length pontos)%nat →
  head pontos_utm = Some a →
  last pontos_utm = Some b →
  polygon_raises lib ring = None →
  crs_raises lib c = None →
  to_file lib gdf caminho_saida (disk w) = (Some KeyboardInterrupt, files) →
  let run := main lib caminho_dxf nome_base entity_id zona_utm hemisferio w in
  fst run = Ret () ∧
  stdout (snd run)
  = stdout w ++ [MsgProcessando; MsgCarregado caminho_dxf;
                 MsgEncontrado (dxftype ent);
                 MsgPontosExtraidos (length pontos);
                 MsgCancelado] ∧
  disk (snd run) = files.
Proof.
  intros caminho_saida pontos_utm ring c gdf
         Hdoc Hent Hpts Hn Ha Hb Hpol Hcrs Hfile run.
  subst run.
  assert (Hne : pontos ≠ []) by (intros ->; simpl in Hn; lia).
  rewrite (main_reaches_writer _ _ _ _ _ _ _ _ _ Hdoc Hent Hpts Hne).
  cbv zeta. fold caminho_saida. fold pontos_utm.
  erewrite criar_shapefile_run;
    [|cbn [heap]; apply lookup_insert_eq
     |unfold pontos_utm; by rewrite converter_coordenadas_utm_map, length_map
     |exact Ha|exact Hb].
  cbv zeta. fold ring. fold c. fold gdf. cbn [disk].
  rewrite Hpol, Hcrs, Hfile. cbn.
  split_and!; [done| |done]. by rewrite <- !app_assoc.
Qed.

(** X14: [main] gives the writer a list of its own: whatever the inputs
    and the libraries, every list that was in the store before the run is
    there, unchanged, after it. *)
Theorem main_keeps_existing_lists
    caminho_dxf nome_base entity_id zona_utm hemisferio w l pts :
  heap w !! l = Some pts →
  heap (snd (main lib caminho_dxf nome_base entity_id zona_utm hemisferio w)) !! l
  = Some pts.
Proof.
  intros Hl.
  rewrite main_run, main_body_cases. cbv zeta.
  destruct (readfile lib caminho_dxf) as [doc|[what|]]; [|done..].
  destruct (encontrar_loop (modelspace doc) entity_id) as [ent|]; [|done].
  destruct (extrair_coordenadas_poligono ent) as [[|p ps]|[what|]]; [done| |done..].
  assert (Hfresh : l ≠ fresh (dom (heap w))).
  { intros ->. apply (is_fresh (dom (heap w))).
    apply elem_of_dom. by exists pts. }
  match goal with
  | |- context [criar_shapefile lib ?l0 ?z ?h ?c ?w1] =>
      pose proof (criar_shapefile_frame l0 z h c w1 _ l
                    (lookup_insert_eq _ _ _) Hfresh) as Hframe;
      destruct (criar_shapefile lib l0 z h c w1) as [[[|]|[what|]] w2]
  end; cbn in Hframe |- *;
    by rewrite Hframe, lookup_insert_ne.
Qed.

(** X11: an entity with one or two points, of either kind, is stopped by
    the writer's length test: [main] prints the minimum-points message and
    the conversion error, calls neither the polygon constructor nor the
    driver, and leaves the disk alone. *)
Theorem main_few_points
    caminho_dxf nome_base entity_id zona_utm hemisferio w doc ent pontos :
  readfile lib caminho_dxf = Ret doc →
  encontrar_loop (modelspace doc) entity_id = Some ent →
  extrair_coordenadas_poligono ent = Ret pontos →
  (0 < length pontos < 3)%nat →
  let run := main lib caminho_dxf nome_base entity_id zona_utm hemisferio w in
  fst run = Ret () ∧
  stdout (snd run)
  = stdout w ++ [MsgProcessando; MsgCarregado caminho_dxf;
                 MsgEncontrado (dxftype ent);
                 MsgPontosExtraidos (length pontos);
                 MsgMinimoPontos; MsgErroConversao] ∧
  disk (snd run) = disk w ∧
  calls (snd run) = calls w ++ [CallReadfile caminho_dxf].
Proof.
  intros Hdoc Hent Hpts Hn run. subst run.
  assert (Hne : pontos ≠ []) by (intros ->; simpl in Hn; lia).
  rewrite (main_reaches_writer _ _ _ _ _ _ _ _ _ Hdoc Hent Hpts Hne).
  cbv zeta.
  erewrite criar_shapefile_poucos_pontos;
    [|cbn [heap]; apply lookup_insert_eq
     |rewrite converter_coordenadas_utm_map, length_map; apply Hn].
  cbn. by rewrite <- !app_assoc.
Qed.

(** X12: when the driver raises an exception, [main] ends with the write
    error and the conversion error and lists no file; nothing is cleaned
    up: the disk is whatever the failed driver call left. *)
Theorem main_write_failure
    caminho_dxf nome_base entity_id zona_utm hemisferio w
    doc ent pontos a b what files :
  let caminho_saida := nome_base +:+ "_poligono_" +:+ entity_id in
  let pontos_utm := converter_coordenadas_utm lib pontos zona_utm hemisferio in
  let ring := if decide (a ≠ b) then pontos_utm ++ [a] else pontos_utm in
  let c := EPSG (epsg_code hemisferio zona_utm) in
  let gdf := GeoDataFrame [1] [MkPolygon ring] (Some c) in
  readfile lib caminho_dxf = Ret doc →
  encontrar_loop (modelspace doc) entity_id = Some ent →
  extrair_coordenadas_poligono ent = Ret pontos →
  (3 ≤ length pontos)%nat →
  head pontos_utm = Some a →
  last pontos_utm = Some b →
  polygon_raises lib ring = None →
  crs_raises lib c = None →
  to_file lib gdf caminho_saida (disk w) = (Some (Exception what), files) →
  let run := main lib caminho_dxf nome_base entity_id zona_utm hemisferio w in
  fst run = Ret () ∧
  stdout (snd run)
  = stdout w ++ [MsgProcessando; MsgCarregado caminho_dxf;
                 MsgEncontrado (dxftype ent);
                 MsgPontosExtraidos (length pontos);
                 MsgErroShapefile (Exception what);
                 MsgErroConversao] ∧
  disk (snd run) = files.
Proof.
  intros caminho_saida pontos_utm ring c gdf
         Hdoc Hent Hpts Hn Ha Hb Hpol Hcrs Hfile run.
  subst run.
  assert (Hne : pontos ≠ []) by (intros ->; simpl in Hn; lia).
  rewrite (main_reaches_writer _ _ _ _ _ _ _ _ _ Hdoc Hent Hpts Hne).
  cbv zeta. fold caminho_saida. fold pontos_utm.
  erewrite criar_shapefile_run;
    [|cbn [heap]; apply lookup_insert_eq
     |unfold pontos_utm; by rewrite converter_coordenadas_utm_map, length_map
     |exact Ha|exact Hb].
  cbv zeta. fold ring. fold c. fold gdf. cbn [disk].
  rewrite Hpol, Hcrs, Hfile. cbn.
  split_and!; [done| |done]. by rewrite <- !app_assoc.
Qed.
End MoreWriter.

(** ** The further properties at concrete inputs *)

Lemma ler_arquivo_dxf_catches_exceptions_witness :
  fst (ler_arquivo_dxf lib_ilegivel "planta.dxf" world0) = Ret None.
Proof.
  apply (proj1 (proj2 (proj2
           (ler_arquivo_dxf_catches_exceptions lib_ilegivel "planta.dxf" world0)))).
  by exists "DXFStructureError".
Defined.

Lemma encontrar_poligono_por_id_unique_handles_witness :
  NoDup (handle <$> modelspace desenho_A) ∧
  ∃ ent, handle ent = "1A" ∧
         fst (encontrar_poligono_por_id desenho_A "1A" world0) = Ret (Some ent).
Proof.
  assert (Hnodup : NoDup (handle <$> modelspace desenho_A)).
  { simpl. apply NoDup_cons. split; [|apply NoDup_singleton].
    intros Hin. apply list_elem_of_singleton in Hin. discriminate. }
  split; [exact Hnodup|].
  exists (LWPolyline "1A"
            [LWPoint 500000 7500000 0 0 0;
             LWPoint 500100 7500000 0 0 0;
             LWPoint 500100 7500100 0 0 0]).
  split; [|apply (encontrar_poligono_por_id_unique_handles
                    desenho_A "1A" world0 _ Hnodup)].
  - reflexivity.
  - split.
    + simpl. apply elem_of_cons. right. apply list_elem_of_singleton. reflexivity.
    + split; [|reflexivity]. apply elem_of_cons. by left.
Defined.

Lemma located_entity_is_extracted_witness :
  ∃ ent pontos,
    fst (encontrar_poligono_por_id desenho_A "1A" world0) = Ret (Some ent) ∧
    extrair_coordenadas_poligono ent = Ret pontos.
Proof.
  assert (Hwf : Forall entidade_coerente (modelspace desenho_A)).
  { simpl. repeat constructor.
    intros Hin. apply tipo_suportado in Hin as [Hin|Hin]; discriminate. }
  destruct (located_entity_is_extracted desenho_A "1A" world0 _ Hwf eq_refl)
    as [(h & points & Hent & _ & Hex)|(h & vs & Hent & _ & Hex)].
  - eexists _, _. split; [reflexivity|exact Hex].
  - eexists _, _. split; [reflexivity|exact Hex].
Defined.

Lemma converter_coordenadas_utm_keeps_closed_witness :
  head vai_e_volta = last vai_e_volta ∧
  head (converter_coordenadas_utm lib_ok vai_e_volta 22 "S")
  = last (converter_coordenadas_utm lib_ok vai_e_volta 22 "S").
Proof.
  split; [reflexivity|].
  apply (proj1 (proj2 (proj2
           (converter_coordenadas_utm_keeps_closed lib_ok vai_e_volta 22 "S")))).
  reflexivity.
Defined.

Lemma criar_shapefile_appends_once_witness :
  let w1 := snd (criar_shapefile lib_ok 1%positive 22 "S" "saida"
                                 (mundo_com triangulo)) in
  heap (snd (criar_shapefile lib_disco_cheio 1%positive 23 "N" "outra" w1))
  = heap w1.
Proof.
  apply (criar_shapefile_appends_once lib_ok lib_disco_cheio 1%positive
           22 "S" "saida" 23 "N" "outra" (mundo_com triangulo) triangulo);
    [reflexivity|simpl; lia].
Defined.

Lemma criar_shapefile_library_errors_propagate_witness :
  fst (criar_shapefile lib_poligono_invalido 1%positive 22 "S" "saida"
                       (mundo_com vai_e_volta))
  = Raise (Exception "ValueError").
Proof.
  pose proof (criar_shapefile_library_errors_propagate lib_poligono_invalido
                1%positive 22 "S" "saida" (mundo_com vai_e_volta) vai_e_volta
                (500000, 7500000) (500000, 7500000)
                eq_refl ltac:(simpl; lia) eq_refl eq_refl) as [Hpol _].
  by rewrite (Hpol (Exception "ValueError") eq_refl).
Defined.

Lemma criar_shapefile_ignores_case_witness :
  criar_shapefile lib_ok 1%positive 22 "s" "saida" (mundo_com triangulo)
  = criar_shapefile lib_ok 1%positive 22 "S" "saida" (mundo_com triangulo).
Proof.
  apply (proj1 (criar_shapefile_ignores_case lib_ok 1%positive 22 "s" "S"
                  "saida" (mundo_com triangulo))).
  reflexivity.
Defined.


Lemma main_writes_the_rounded_ring_witness :
  calls (snd (main lib_ok "planta.dxf" "planta" "1A" 23 "S" world0))
  = [CallReadfile "planta.dxf";
     CallPolygon (triangulo ++ [(500000, 7500000)]);
     CallSetCrs (EPSG 32723);
     CallToFile
       (GeoDataFrame [1] [MkPolygon (triangulo ++ [(500000, 7500000)])]
                     (Some (EPSG 32723)))
       "planta_poligono_1A" "ESRI Shapefile"].
Proof.
  pose proof (main_writes_the_rounded_ring lib_ok "planta.dxf" "planta" "1A"
                23 "S" world0 desenho_A
                (LWPolyline "1A"
                   [LWPoint 500000 7500000 0 0 0;
                    LWPoint 500100 7500000 0 0 0;
                    LWPoint 500100 7500100 0 0 0])
                triangulo (500000, 7500000) (500100, 7500100)
                (∅ ∪ list_to_set (arquivos_gerados "planta_poligono_1A"))
                eq_refl eq_refl eq_refl ltac:(simpl; lia) eq_refl eq_refl
                eq_refl eq_refl eq_refl) as (_ & _ & _ & Hcalls & _).
  exact Hcalls.
Defined.

Lemma main_reports_unexpected_error_witness :
  last (stdout (snd (main lib_crs_desconhecido "planta.dxf" "planta" "1A"
                          99 "S" world0)))
  = Some (MsgErroInesperado (Exception "CRSError")).
Proof.
  pose proof (main_reports_unexpected_error lib_crs_desconhecido "planta.dxf"
                "planta" "1A" 99 "S" world0 desenho_A
                (LWPolyline "1A"
                   [LWPoint 500000 7500000 0 0 0;
                    LWPoint 500100 7500000 0 0 0;
                    LWPoint 500100 7500100 0 0 0])
                triangulo (500000, 7500000) (500100, 7500100) "CRSError"
                eq_refl eq_refl eq_refl ltac:(simpl; lia) eq_refl eq_refl
                (or_intror (conj eq_refl eq_refl))) as (_ & Hout & _).
  by rewrite Hout.
Defined.

Lemma main_interrupted_write_witness :
  stdout (snd (main lib_interrompido "planta.dxf" "planta" "1A" 23 "S" world0))
  = [MsgProcessando; MsgCarregado "planta.dxf"; MsgEncontrado "LWPOLYLINE";
     MsgPontosExtraidos 3; MsgCancelado].
Proof.
  pose proof (main_interrupted_write lib_interrompido "planta.dxf" "planta" "1A"
                23 "S" world0 desenho_A
                (LWPolyline "1A"
                   [LWPoint 500000 7500000 0 0 0;
                    LWPoint 500100 7500000 0 0 0;
                    LWPoint 500100 7500100 0 0 0])
                triangulo (500000, 7500000) (500100, 7500100)
                (∅ ∪ {["planta_poligono_1A.shp"]})
                eq_refl eq_refl eq_refl ltac:(simpl; lia) eq_refl eq_refl
                eq_refl eq_refl eq_refl) as (_ & Hout & _).
  exact Hout.
Defined.

Lemma main_keeps_existing_lists_witness :
  heap (snd (main lib_ok "planta.dxf" "planta" "1A" 23 "S" (mundo_com segmento)))
    !! 1%positive
  = Some segmento.
Proof.
  apply (main_keeps_existing_lists lib_ok "planta.dxf" "planta" "1A" 23 "S"
           (mundo_com segmento) 1%positive segmento).
  reflexivity.
Defined.

Lemma main_few_points_witness :
  stdout (snd (main lib_D "d.dxf" "d" "2F" 22 "S" world0))
  = [MsgProcessando; MsgCarregado "d.dxf"; MsgEncontrado "POLYLINE";
     MsgPontosExtraidos 2; MsgMinimoPontos; MsgErroConversao].
Proof.
  pose proof (main_few_points lib_D "d.dxf" "d" "2F" 22 "S" world0 desenho_D
                (Polyline "2F" [Vertex (Vec3 0 0 0); Vertex (Vec3 10 0 5)])
                [(0, 0); (10, 0)]
                eq_refl eq_refl eq_refl ltac:(simpl; lia)) as (_ & Hout & _).
  exact Hout.
Defined.

Lemma main_write_failure_witness :
  elements (disk (snd (main lib_disco_cheio "planta.dxf" "planta" "1A" 23 "S"
                            world0)))
  = ["planta_poligono_1A.shp"].
Proof.
  pose proof (main_write_failure lib_disco_cheio "planta.dxf" "planta" "1A"
                23 "S" world0 desenho_A
                (LWPolyline "1A"
                   [LWPoint 500000 7500000 0 0 0;
                    LWPoint 500100 7500000 0 0 0;
                    LWPoint 500100 7500100 0 0 0])
                triangulo (500000, 7500000) (500100, 7500100) "OSError"
                (∅ ∪ {["planta_poligono_1A.shp"]})
                eq_refl eq_refl eq_refl ltac:(simpl; lia) eq_refl eq_refl
                eq_refl eq_refl eq_refl) as (_ & _ & Hdisk).
  rewrite Hdisk. vm_compute. reflexivity.
Defined.
